(** * SynthTeam agentic workflow: response parsing and the code/review loop

    A shallow embedding of the Python agents under [AgenticWorkflow/]:
    - [AI_Engineer_Agent.py]: [parse_json_response], the four pipeline
      stages and the driver [generate_ai_service] with its bounded
      generate/review loop;
    - [RequirementsAgent.py]: [analyze_requirements];
    - [DatabaseAgent.py]: [generate_schemas].

    Python values are modelled by [pyval], Python [str] by lists of Unicode
    code points, dictionaries by [gmap], exceptions by an explicit outcome
    type, and calls to the language model by a trace of calls together with
    an arbitrary response function. *)

From Stdlib Require Import ZArith NArith List String Ascii Bool Lia.
From Stdlib Require Import SpecFloat.
From stdpp Require Import base option list gmap.

Local Open Scope Z_scope.

(* ================================================================== *)
(** * Python strings                                                   *)
(* ================================================================== *)

(** A Python [str] is a sequence of Unicode code points. *)
Definition text : Type := list N.

(** The code points of an ASCII literal. *)
Definition T (s : string) : text := map N_of_ascii (list_ascii_of_string s).
Arguments T s%_string.

(** [str.isspace] on one code point: the characters [str.strip()] removes. *)
Definition is_space (c : N) : bool :=
  ((9 <=? c) && (c <=? 13))%N || ((28 <=? c) && (c <=? 32))%N
  || (c =? 133)%N || (c =? 160)%N || (c =? 5760)%N
  || ((8192 <=? c) && (c <=? 8202))%N
  || (c =? 8232)%N || (c =? 8233)%N || (c =? 8239)%N
  || (c =? 8287)%N || (c =? 12288)%N.

(** [s.lstrip()] *)
Fixpoint str_lstrip (s : text) : text :=
  match s with
  | [] => []
  | c :: s' => if is_space c then str_lstrip s' else s
  end.

(** [s.rstrip()] *)
Definition str_rstrip (s : text) : text := rev (str_lstrip (rev s)).

(** [s.strip()] *)
Definition str_strip (s : text) : text := str_rstrip (str_lstrip s).

(** [s.startswith(p)] *)
Fixpoint str_startswith (p s : text) : bool :=
  match p, s with
  | [], _ => true
  | _ :: _, [] => false
  | a :: p', b :: s' => (a =? b)%N && str_startswith p' s'
  end.

(** [s.find(sub)], with [None] for Python's [-1]. *)
Fixpoint str_find (sub s : text) : option nat :=
  if str_startswith sub s then Some 0%nat
  else match s with
       | [] => None
       | _ :: s' => S <$> str_find sub s'
       end.

(** [sub in s] for two strings. *)
Definition str_in (sub s : text) : bool :=
  match str_find sub s with Some _ => true | None => false end.

(** The scan behind [s.split(sep)] for a non-empty [sep]: [skip] counts the
    characters of a separator just recognised that are still to be passed
    over, [cur] holds the current piece in reverse. *)
Fixpoint split_scan (sep : text) (skip : nat) (cur : text) (s : text) : list text :=
  match s with
  | [] => [rev cur]
  | c :: s' =>
      match skip with
      | S k => split_scan sep k cur s'
      | O =>
          if str_startswith sep s
          then rev cur :: split_scan sep (length sep - 1) [] s'
          else split_scan sep 0 (c :: cur) s'
      end
  end.

(* ================================================================== *)
(** * The fragment of [re] used by the agents                          *)
(* ================================================================== *)

(** A pattern is a sequence of items: a literal, or the lazy [.*?] (with
    [re.DOTALL], so the dot matches every character). *)
Inductive re_item : Type :=
| Lit (s : text)
| LazyAny.

Definition regex : Type := list re_item.

(** Backtracking match of [items] at the start of [s]: the number of
    characters of the match found first. The lazy star tries the rest of the
    pattern before it takes one more character. *)
Fixpoint re_match (items : regex) (s : text) : option nat :=
  match items with
  | [] => Some 0%nat
  | Lit l :: rest =>
      if str_startswith l s
      then (fun n => (length l + n)%nat) <$> re_match rest (drop (length l) s)
      else None
  | LazyAny :: rest =>
      (fix lazy (s : text) : option nat :=
         match re_match rest s with
         | Some n => Some n
         | None =>
             match s with
             | [] => None
             | _ :: s' => S <$> lazy s'
             end
         end) s
  end.

(** [re.sub(pattern, '', s, flags=re.DOTALL)]: every non-overlapping match,
    leftmost first, is deleted. [skip] counts the characters of the current
    match still to be dropped. (An empty match replaced by the empty string
    changes nothing.) *)
Fixpoint re_sub_scan (pattern : regex) (skip : nat) (s : text) : text :=
  match s with
  | [] => []
  | c :: s' =>
      match skip with
      | S k => re_sub_scan pattern k s'
      | O =>
          match re_match pattern s with
          | Some (S n) => re_sub_scan pattern n s'
          | _ => c :: re_sub_scan pattern 0 s'
          end
      end
  end.

Definition re_sub (pattern : regex) (s : text) : text := re_sub_scan pattern 0 s.

(** [r'<think>.*?</think>'] *)
Definition think_open : text := T "<think>".
Definition think_close : text := T "</think>".
Definition span_re (o c : text) : regex := [Lit o; LazyAny; Lit c].
Definition think_re : regex := span_re think_open think_close.

(** The step both [parse_json_response] and [generate_documentation] apply
    to the stripped response:
    [if "<think>" in text: text = re.sub(r'<think>.*?</think>', '', text, flags=re.DOTALL).strip()] *)
Definition remove_think_tags (text0 : text) : text :=
  if str_in think_open text0 then str_strip (re_sub think_re text0) else text0.

(** [s.split(sep)]; an empty separator is a [ValueError]. *)
Definition split_parts (sep s : text) : option (list text) :=
  match sep with
  | [] => None
  | _ :: _ => Some (split_scan sep 0 [] s)
  end.

(* ================================================================== *)
(** * Python values and exceptions                                     *)
(* ================================================================== *)

(** The values [json.loads] produces and the agents pass around. *)
#[warnings="-register-all"]
Inductive pyval : Type :=
| PNone
| PBool (b : bool)
| PInt (z : Z)
| PFloat (f : spec_float)
| PStr (s : text)
| PList (l : list pyval)
| PDict (d : gmap (list N) pyval).

Inductive exn : Type :=
| JSONDecodeError (msg : text)
| IndexError
| TypeError
| AttributeError
| KeyError
| ValueError
| RecursionError.

(** The result of evaluating a Python expression or block: a value, or an
    exception on its way up. *)
Inductive outcome (A : Type) : Type :=
| Ok (a : A)
| Raise (e : exn).
Arguments Ok {A} a.
Arguments Raise {A} e.

#[global] Instance outcome_ret : MRet outcome := fun A a => Ok a.
#[global] Instance outcome_bind : MBind outcome :=
  fun A B f m => match m with Ok a => f a | Raise e => Raise e end.

(** [try: body except json.JSONDecodeError as e: handler(str(e))] *)
Definition except_decode {A : Type} (body : outcome A) (handler : text -> outcome A) : outcome A :=
  match body with
  | Raise (JSONDecodeError msg) => handler msg
  | _ => body
  end.

(** [if b: block] for a block run only for its exceptions. *)
Definition py_when (b : bool) (block : outcome unit) : outcome unit :=
  if b then block else Ok tt.

(** Truth value of a Python object, as [if x], [not x] and [while] test it. *)
Definition truthy (v : pyval) : bool :=
  match v with
  | PNone => false
  | PBool b => b
  | PInt z => negb (z =? 0)
  | PFloat f => match f with S754_zero _ => false | _ => true end
  | PStr s => match s with [] => false | _ :: _ => true end
  | PList l => match l with [] => false | _ :: _ => true end
  | PDict d => negb (Nat.eqb (size d) 0)
  end.

(** [v == s] for a string literal [s]. *)
Definition py_eq_str (v : pyval) (s : text) : bool :=
  match v with
  | PStr s' => bool_decide (s' = s)
  | _ => false
  end.

(** [key in v] for a string [key]: key of a dict, element of a list,
    substring of a string; numbers, booleans and [None] are not iterable. *)
Definition py_in (key : text) (v : pyval) : outcome bool :=
  match v with
  | PDict d => Ok (bool_decide (is_Some (d !! key)))
  | PList l => Ok (existsb (fun x => py_eq_str x key) l)
  | PStr s => Ok (str_in key s)
  | _ => Raise TypeError
  end.

(** [v.get(key, dflt)]: only dicts have the method. *)
Definition py_get (v : pyval) (key : text) (dflt : pyval) : outcome pyval :=
  match v with
  | PDict d => Ok (default dflt (d !! key))
  | _ => Raise AttributeError
  end.

(** [v[key]] for a string [key]. *)
Definition py_getitem (v : pyval) (key : text) : outcome pyval :=
  match v with
  | PDict d => match d !! key with Some x => Ok x | None => Raise KeyError end
  | _ => Raise TypeError
  end.

(** [v[key] = x] for a string [key]; the updated container is returned. *)
Definition py_setitem (v : pyval) (key : text) (x : pyval) : outcome pyval :=
  match v with
  | PDict d => Ok (PDict (<[key := x]> d))
  | _ => Raise TypeError
  end.

(** [len(v)] *)
Definition py_len (v : pyval) : outcome Z :=
  match v with
  | PStr s => Ok (Z.of_nat (length s))
  | PList l => Ok (Z.of_nat (length l))
  | PDict d => Ok (Z.of_nat (size d))
  | _ => Raise TypeError
  end.

(** The items [for x in v] visits: elements of a list, keys of a dict,
    one-character strings of a string. *)
Definition py_iter (v : pyval) : outcome (list pyval) :=
  match v with
  | PList l => Ok l
  | PDict d => Ok ((fun kv => PStr (fst kv)) <$> map_to_list d)
  | PStr s => Ok ((fun c => PStr [c]) <$> s)
  | _ => Raise TypeError
  end.

(** [v[:n]]: strings and lists can be sliced; a dict cannot (a [TypeError],
    or a [KeyError] from Python 3.12 on), nor can the other values. *)
Definition py_slice_to (n : nat) (v : pyval) : outcome pyval :=
  match v with
  | PStr s => Ok (PStr (take n s))
  | PList l => Ok (PList (take n l))
  | _ => Raise TypeError
  end.

(** [l[i]] on a list of strings. *)
Definition py_index (l : list text) (i : nat) : outcome text :=
  match l !! i with
  | Some x => Ok x
  | None => Raise IndexError
  end.

(** [text.split(sep)] *)
Definition str_split (sep s : text) : outcome (list text) :=
  match split_parts sep s with
  | Some parts => Ok parts
  | None => Raise ValueError
  end.

(** A dict display [{k1: v1, ...}]: the dict of its items, later items winning. *)
Definition py_dict (items : list (text * pyval)) : pyval :=
  PDict (foldl (fun d kv => <[fst kv := snd kv]> d) ∅ items).

(* ================================================================== *)
(** * Calls to the language model                                      *)
(* ================================================================== *)

(** The [Agent] objects the modules construct. *)
Inductive Agent : Type :=
| file_schema_agent
| coding_agent
| code_reviewer_agent
| documentation_agent
| requirements_agent
| database_agent.

(** A prompt is the f-string template of its stage together with the values
    interpolated into it ([json.dumps] of lists of strings and of values
    that [json.loads] produced, which does not raise). *)
Inductive prompt : Type :=
| SchemaPrompt (features ai_techstack : list text)
| CodePrompt (file_schema : pyval) (features techstack : list text)
    (current_code review_feedback : pyval)
| ReviewPrompt (file_schema : pyval) (features : list text) (generated_code : pyval)
| DocPrompt (project_info file_schema code : pyval) (features : list text)
| UserPrompt (p : text)
| DatabasePrompt (requirements db_techstack : list text).

(** One [Runner.run_sync(agent, prompt)]. *)
Record call : Type := Call { call_agent : Agent; call_prompt : prompt }.

(** The calls made so far, oldest first. *)
Definition trace : Type := list call.

(** A computation that talks to the model: it extends the trace and ends in
    a value or an exception. *)
Definition M (A : Type) : Type := trace -> outcome A * trace.

#[global] Instance M_ret : MRet M := fun A a tr => (Ok a, tr).
#[global] Instance M_bind : MBind M :=
  fun A B f m tr =>
    match m tr with
    | (Ok a, tr') => f a tr'
    | (Raise e, tr') => (Raise e, tr')
    end.

(** A block without model calls inside a computation. *)
Definition lift {A : Type} (o : outcome A) : M A := fun tr => (o, tr).

Definition is_agent (a b : Agent) : bool :=
  match a, b with
  | file_schema_agent, file_schema_agent
  | coding_agent, coding_agent
  | code_reviewer_agent, code_reviewer_agent
  | documentation_agent, documentation_agent
  | requirements_agent, requirements_agent
  | database_agent, database_agent => true
  | _, _ => false
  end.

(** How many calls of [tr] went to agent [a]. *)
Definition calls_to (a : Agent) (tr : trace) : nat :=
  length (List.filter (fun c => is_agent a (call_agent c)) tr).

(** The exceptions [json.loads] lets escape on a string besides its
    [JSONDecodeError]: a plain [ValueError] for an integer literal longer
    than the interpreter's limit on digits, and a [RecursionError] for a
    document nested deeper than the interpreter's stack allows. *)
Inductive loads_fault : Type :=
| DigitLimit
| TooDeep.

Definition fault_exn (f : loads_fault) : exn :=
  match f with
  | DigitLimit => ValueError
  | TooDeep => RecursionError
  end.

(** What [json.loads] does on a text: it returns a value, raises a
    [JSONDecodeError] with its message, or raises one of the two other
    exceptions. *)
Inductive loads_result : Type :=
| Loaded (v : pyval)
| DecodeError (msg : text)
| Fault (f : loads_fault).

Definition of_loads (r : loads_result) : outcome pyval :=
  match r with
  | Loaded v => Ok v
  | DecodeError msg => Raise (JSONDecodeError msg)
  | Fault f => Raise (fault_exn f)
  end.

(** The loop variables of [generate_ai_service]. *)
Record loop_state : Type := LoopState {
  current_code : pyval;
  review_feedback : pyval;
  iteration : Z;
  approved : pyval
}.

Definition doc_key : text := T "documentation.md".
Definition review_failed_feedback : text := T "Review parsing failed, please regenerate code".

Section Model.

(** [json.loads] and the model's answers are outside the repository: the
    development is parametric in both. The answer to a call may depend on
    every call made before it. A call is taken to return its text: a failure
    of the inference call itself (network, time-out) is not modelled. *)
Variable json_loads : text -> loads_result.
Variable final_output : trace -> Agent -> prompt -> text.

(** [Runner.run_sync(agent, prompt).final_output] *)
Definition Runner_run_sync (agent : Agent) (p : prompt) : M text :=
  fun tr => (Ok (final_output tr agent p), tr ++ [Call agent p]).

(** The unwrapping of a fenced block, shared by all three modules:
[[
    if "```json" in text:
        text = text.split("```json")[1].split("```")[0].strip()
    elif "```" in text:
        text = text.split("```")[1].split("```")[0].strip()
]] *)
Definition unwrap_code_block (text0 : text) : outcome text :=
  if str_in (T "```json") text0 then
    parts ← str_split (T "```json") text0;
    inner ← py_index parts 1;
    parts' ← str_split (T "```") inner;
    body ← py_index parts' 0;
    Ok (str_strip body)
  else if str_in (T "```") text0 then
    parts ← str_split (T "```") text0;
    inner ← py_index parts 1;
    parts' ← str_split (T "```") inner;
    body ← py_index parts' 0;
    Ok (str_strip body)
  else Ok text0.

(** [AI_Engineer_Agent.parse_json_response] *)
Definition parse_json_response (response_text : text) : outcome pyval :=
  let text0 := str_strip response_text in
  let text1 := remove_think_tags text0 in
  text2 ← unwrap_code_block text1;
  of_loads (json_loads text2).

(** The dictionaries the stages return when parsing fails. *)
Definition schema_error (msg raw : text) : pyval :=
  py_dict [(T "error", PStr (T "Failed to parse schema: " ++ msg));
           (T "raw", PStr raw);
           (T "files", PList [])].

Definition code_error (msg raw : text) : pyval :=
  py_dict [(T "error", PStr (T "Failed to parse code: " ++ msg));
           (T "raw", PStr raw);
           (T "files", PDict ∅);
           (T "status", PStr (T "error"))].

Definition review_error (msg raw : text) : pyval :=
  py_dict [(T "error", PStr (T "Failed to parse review: " ++ msg));
           (T "raw", PStr raw);
           (T "approved", PBool false);
           (T "feedback_for_coder", PStr review_failed_feedback)].

(** What each stage makes of the model's answer [raw]. *)
Definition schema_of_response (raw : text) : outcome pyval :=
  except_decode (parse_json_response raw) (fun msg => Ok (schema_error msg raw)).

Definition code_of_response (raw : text) : outcome pyval :=
  except_decode (parse_json_response raw) (fun msg => Ok (code_error msg raw)).

Definition review_of_response (raw : text) : outcome pyval :=
  except_decode (parse_json_response raw) (fun msg => Ok (review_error msg raw)).

(** [generate_file_schema] *)
Definition generate_file_schema (features ai_techstack : list text) : M pyval :=
  raw ← Runner_run_sync file_schema_agent (SchemaPrompt features ai_techstack);
  lift (schema_of_response raw).

(** [generate_code] *)
Definition generate_code (file_schema : pyval) (features techstack : list text)
    (code feedback : pyval) : M pyval :=
  raw ← Runner_run_sync coding_agent (CodePrompt file_schema features techstack code feedback);
  lift (code_of_response raw).

(** [review_code] *)
Definition review_code (file_schema : pyval) (features : list text)
    (generated_code : pyval) : M pyval :=
  raw ← Runner_run_sync code_reviewer_agent (ReviewPrompt file_schema features generated_code);
  lift (review_of_response raw).

(** [generate_documentation]: the answer stripped and without its reasoning
    spans; nothing is parsed. *)
Definition generate_documentation (project_info file_schema code : pyval)
    (features : list text) : M text :=
  raw ← Runner_run_sync documentation_agent (DocPrompt project_info file_schema code features);
  mret (remove_think_tags (str_strip raw)).

(** ** [generate_ai_service] *)

(** The [verbose] prints write to the terminal only; what the model keeps of
    them are the expressions they evaluate, which can raise. *)

(** [len(file_schema.get('files', []))] and the loop printing
    [f.get('path', 'unknown')] for each planned file. *)
Definition print_schema_files (file_schema : pyval) : outcome unit :=
  files ← py_get file_schema (T "files") (PList []);
  _ ← py_len files;
  files' ← py_get file_schema (T "files") (PList []);
  items ← py_iter files';
  _ ← mapM (fun f => py_get f (T "path") (PStr (T "unknown"))) items;
  Ok tt.

(** The score line and, when not approved, the first three issues. *)
Definition print_review (review_result approved_now : pyval) : outcome unit :=
  _ ← py_get review_result (T "overall_score") (PStr (T "N/A"));
  if truthy approved_now then Ok tt
  else
    issues ← py_get review_result (T "issues") (PList []);
    if truthy issues then
      _ ← py_len issues;
      shown ← py_slice_to 3 issues;
      items ← py_iter shown;
      _ ← mapM (fun issue =>
                  _ ← py_get issue (T "severity") (PStr (T "unknown"));
                  _ ← py_get issue (T "file") (PStr []);
                  descr ← py_get issue (T "issue") (PStr []);
                  py_slice_to 50 descr) items;
      Ok tt
    else Ok tt.

(** ["error" in code_result and code_result.get("status") == "error"] *)
Definition code_failed (code_result : pyval) : outcome bool :=
  has_error ← py_in (T "error") code_result;
  if has_error : bool then
    status ← py_get code_result (T "status") PNone;
    Ok (py_eq_str status (T "error"))
  else Ok false.

Section Driver.

Variable features ai_techstack : list text.
Variable max_iterations : Z.
Variable verbose : bool.
Variable file_schema : pyval.

(** [not approved and iteration < max_iterations] *)
Definition loop_guard (st : loop_state) : bool :=
  negb (truthy (approved st)) && (iteration st <? max_iterations).

(** One pass through the body of the [while]. *)
Definition loop_body (st : loop_state) : M loop_state :=
  let iteration' := iteration st + 1 in
  code_result ← generate_code file_schema features ai_techstack
                  (current_code st) (review_feedback st);
  failed ← lift (code_failed code_result);
  if failed : bool then
    (* continue *)
    mret (LoopState (current_code st) (review_feedback st) iteration' (approved st))
  else
    code' ← lift (py_get code_result (T "files") (PDict ∅));
    _ ← lift (py_when verbose (_ ← py_len code'; Ok tt));
    review_result ← review_code file_schema features code';
    approved' ← lift (py_get review_result (T "approved") (PBool false));
    feedback' ← lift (py_get review_result (T "feedback_for_coder") (PStr []));
    _ ← lift (py_when verbose (print_review review_result approved'));
    mret (LoopState code' feedback' iteration' approved').

(** The [while] loop, by recursion on the distance of the counter to the
    ceiling; [coding_review_loop_unfold] shows that it satisfies the
    equation of the loop. *)
Fixpoint loop_from (dist : nat) (st : loop_state) : M loop_state :=
  match dist with
  | O => mret st
  | S dist' =>
      if loop_guard st then st' ← loop_body st; loop_from dist' st'
      else mret st
  end.

Definition coding_review_loop (st : loop_state) : M loop_state :=
  loop_from (Z.to_nat (max_iterations - iteration st)) st.


(** The state the loop starts from. *)
Definition initial_state : loop_state :=
  LoopState (PDict ∅) (PStr []) 0 (PBool false).

(** Step 3 and the result: documentation is generated, stored under
    ["documentation.md"], and the result dictionary is assembled. *)
Definition assemble_result (st : loop_state) : M pyval :=
  name ← lift (py_get file_schema (T "project_name") (PStr (T "ai_service")));
  description ← lift (py_get file_schema (T "description") (PStr (T "FastAPI AI Service")));
  let project_info := py_dict [(T "name", name); (T "description", description)] in
  documentation ← generate_documentation project_info file_schema (current_code st) features;
  code' ← lift (py_setitem (current_code st) doc_key (PStr documentation));
  _ ← lift (py_when verbose (_ ← py_len code'; Ok tt));
  mret (py_dict [(T "files", code');
                 (T "schema", file_schema);
                 (T "iterations", PInt (iteration st));
                 (T "approved", approved st);
                 (T "project_name", name)]).

End Driver.

(** The result returned when the schema stage failed. *)
Definition schema_failure (file_schema : pyval) : pyval :=
  py_dict [(T "error", PStr (T "Schema generation failed"));
           (T "details", file_schema)].

Definition generate_ai_service (features ai_techstack : list text)
    (max_iterations : Z) (verbose : bool) : M pyval :=
  file_schema ← generate_file_schema features ai_techstack;
  has_error ← lift (py_in (T "error") file_schema);
  if has_error : bool then
    _ ← lift (py_when verbose (_ ← py_getitem file_schema (T "error"); Ok tt));
    mret (schema_failure file_schema)
  else
    _ ← lift (py_when verbose (print_schema_files file_schema));
    st ← coding_review_loop features ai_techstack max_iterations verbose file_schema
           initial_state;
    assemble_result features verbose file_schema st.

(** [get_ai_service_code] *)
Definition get_ai_service_code (features ai_techstack : list text)
    (max_iterations : Z) : M pyval :=
  generate_ai_service features ai_techstack max_iterations false.

(** ** [RequirementsAgent.analyze_requirements] *)

Definition empty_techstack : pyval :=
  py_dict [(T "frontend", PList []); (T "backend", PList []);
           (T "database", PList []); (T "ai", PList []); (T "devops", PList [])].

Definition requirements_error (msg raw : text) : pyval :=
  py_dict [(T "error", PStr (T "Failed to parse JSON: " ++ msg));
           (T "raw_output", PStr raw);
           (T "Features", PList []);
           (T "Techstack", empty_techstack)].

(** The [try] block of [analyze_requirements] and its handler. *)
Definition requirements_of_response (raw : text) : outcome pyval :=
  except_decode
    (response_text ← unwrap_code_block (str_strip raw);
     parsed_output ← of_loads (json_loads response_text);
     has_features ← py_in (T "Features") parsed_output;
     parsed_output ← (if has_features : bool then Ok parsed_output
                      else py_setitem parsed_output (T "Features") (PList []));
     has_techstack ← py_in (T "Techstack") parsed_output;
     parsed_output ← (if has_techstack : bool then Ok parsed_output
                      else py_setitem parsed_output (T "Techstack") empty_techstack);
     Ok parsed_output)
    (fun msg => Ok (requirements_error msg raw)).

Definition analyze_requirements (p : text) : M pyval :=
  raw ← Runner_run_sync requirements_agent (UserPrompt p);
  lift (requirements_of_response raw).

(** ** [DatabaseAgent.generate_schemas] *)

Definition schemas_error (msg raw : text) : pyval :=
  py_dict [(T "error", PStr (T "Failed to parse JSON: " ++ msg));
           (T "raw_output", PStr raw);
           (T "schemas", PDict ∅)].

(** The [try] block of [generate_schemas] and its handler. *)
Definition schemas_of_response (raw : text) : outcome pyval :=
  except_decode
    (response_text ← unwrap_code_block (str_strip raw);
     parsed_output ← of_loads (json_loads response_text);
     has_schemas ← py_in (T "schemas") parsed_output;
     Ok (if has_schemas : bool then parsed_output
         else py_dict [(T "schemas", parsed_output)]))
    (fun msg => Ok (schemas_error msg raw)).

Definition generate_schemas (requirements db_techstack : list text) : M pyval :=
  raw ← Runner_run_sync database_agent (DatabasePrompt requirements db_techstack);
  lift (schemas_of_response raw).

End Model.

(* ================================================================== *)
(** * [InfraAgent.run_container]: names and port discovery             *)
(* ================================================================== *)

(** [l[-1]] on a list of strings. *)
Definition py_index_last (l : list text) : outcome text :=
  match last l with
  | Some x => Ok x
  | None => Raise IndexError
  end.

(** [service_name = image_name.split(":")[0].split("/")[-1]] *)
Definition service_name (image_name : text) : outcome text :=
  parts ← str_split (T ":") image_name;
  repository ← py_index parts 0;
  segments ← str_split (T "/") repository;
  py_index_last segments.

(** [v[0]]: the first element of a list, the first character of a string;
    a dict with string keys has no key [0]. *)
Definition py_item0 (v : pyval) : outcome pyval :=
  match v with
  | PList l => match l with x :: _ => Ok x | [] => Raise IndexError end
  | PStr s => match s with c :: _ => Ok (PStr [c]) | [] => Raise IndexError end
  | PDict _ => Raise KeyError
  | _ => Raise TypeError
  end.

(** The body of [for port_key in ports_dict.keys()]: the state is
    [port_mappings] and [all_ports_assigned].
[[
    port_info = container_ports.get(port_key)
    if port_info and len(port_info) > 0:
        port_mappings[port_key] = port_info[0]["HostPort"]
    else:
        all_ports_assigned = False
]] *)
Definition assign_port (container_ports : pyval) (state : gmap (list N) pyval * bool)
    (port_key : text) : outcome (gmap (list N) pyval * bool) :=
  port_info ← py_get container_ports port_key PNone;
  assigned ← (if truthy port_info then n ← py_len port_info; Ok (0 <? n) else Ok false);
  if assigned : bool then
    first ← py_item0 port_info;
    host_port ← py_getitem first (T "HostPort");
    Ok (<[port_key := host_port]> (fst state), snd state)
  else Ok (fst state, false).

Fixpoint assign_ports (container_ports : pyval) (state : gmap (list N) pyval * bool)
    (keys : list text) : outcome (gmap (list N) pyval * bool) :=
  match keys with
  | [] => Ok state
  | port_key :: keys' =>
      state' ← assign_port container_ports state port_key;
      assign_ports container_ports state' keys'
  end.

Section PortDiscovery.

(** [ports_after k]: what [container.reload()] followed by
    [container.attrs["NetworkSettings"]["Ports"]] gives at the [k]-th
    attempt; the container runtime is outside the repository. [keys] are
    the keys of [ports_dict] in the order the dict yields them. *)
Variable ports_after : nat -> outcome pyval.
Variable keys : list text.

(** [for _ in range(10)], with [attempts] rounds left and [made] made: the
    result is [port_mappings] and the number of reloads made. The pause
    between two rounds is not modelled. *)
Fixpoint poll_ports (attempts made : nat) (port_mappings : gmap (list N) pyval)
    : outcome (gmap (list N) pyval * nat) :=
  match attempts with
  | O => Ok (port_mappings, made)
  | S attempts' =>
      container_ports ← ports_after (S made);
      '(port_mappings', all_ports_assigned) ←
        assign_ports container_ports (port_mappings, true) keys;
      if all_ports_assigned : bool
      then Ok (port_mappings', S made)
      else poll_ports attempts' (S made) port_mappings'
  end.

(** [port_mappings = {}], and the polling when [ports_dict] is not empty. *)
Definition discover_ports : outcome (gmap (list N) pyval * nat) :=
  match keys with
  | [] => Ok (∅, O)
  | _ :: _ => poll_ports 10 0 ∅
  end.

End PortDiscovery.

(* ================================================================== *)
(** * Names for the texts and characters of the further properties     *)
(* ================================================================== *)

(** A text of whitespace characters only. *)
Definition all_space (w : text) : Prop := Forall (fun c => is_space c = true) w.

(** The two fences of [parse_json_response]. *)
Definition json_fence : text := T "```json".
Definition fence : text := T "```".

(** The colon and the slash of [service_name]. *)
Definition colon : N := 58%N.
Definition slash : N := 47%N.

(* ================================================================== *)
(** * Test doubles                                                     *)
(* ================================================================== *)

(** The text [{"approved": true}] (34 is the double quote). *)
Definition approve_text : text :=
  T "{" ++ [34%N] ++ T "approved" ++ [34%N] ++ T ": true}".

(** The text [{"approved": true, "feedback_for_coder": "ship it"}]. *)
Definition approve_with_feedback_text : text :=
  T "{" ++ [34%N] ++ T "approved" ++ [34%N] ++ T ": true, "
    ++ [34%N] ++ T "feedback_for_coder" ++ [34%N] ++ T ": "
    ++ [34%N] ++ T "ship it" ++ [34%N] ++ T "}".

(** The message of [json.loads] on a text that starts with no JSON value. *)
Definition expecting_value : text := T "Expecting value: line 1 column 1 (char 0)".

(** A double for [json.loads] that knows six documents, and answers as
    [json.loads] does on them; every other text is taken for malformed (the
    examples below only feed it these six, the text [oops] and two texts
    that start with [<think>]). *)
Definition stub_loads (s : text) : loads_result :=
  if bool_decide (s = T "{}") then Loaded (PDict ∅)
  else if bool_decide (s = T "[]") then Loaded (PList [])
  else if bool_decide (s = T "42") then Loaded (PInt 42)
  else if bool_decide (s = T "null") then Loaded PNone
  else if bool_decide (s = approve_text) then Loaded (py_dict [(T "approved", PBool true)])
  else if bool_decide (s = approve_with_feedback_text) then
    Loaded (py_dict [(T "approved", PBool true);
                     (T "feedback_for_coder", PStr (T "ship it"))])
  else DecodeError expecting_value.

(** A model whose every answer is the text [oops]. *)
Definition garbage_model (tr : trace) (a : Agent) (p : prompt) : text := T "oops".

(** A model that answers every agent with the same text. *)
Definition constant_model (answer : text) (tr : trace) (a : Agent) (p : prompt) : text :=
  answer.

(** A model with one fixed answer per stage of the AI-engineer pipeline. *)
Definition staged_model (schema code review docs : text)
    (tr : trace) (a : Agent) (p : prompt) : text :=
  match a with
  | file_schema_agent => schema
  | coding_agent => code
  | code_reviewer_agent => review
  | _ => docs
  end.

(** The text [{"error": "busy", "status": "error"}]. *)
Definition error_report_text : text :=
  T "{" ++ [34%N] ++ T "error" ++ [34%N] ++ T ": " ++ [34%N] ++ T "busy" ++ [34%N]
    ++ T ", " ++ [34%N] ++ T "status" ++ [34%N] ++ T ": "
    ++ [34%N] ++ T "error" ++ [34%N] ++ T "}".

(** The object that text stands for. *)
Definition error_report : gmap (list N) pyval :=
  <[T "status" := PStr (T "error")]> (<[T "error" := PStr (T "busy")]> ∅).

(** [stub_loads] with that seventh document. *)
Definition stub_loads_error (s : text) : loads_result :=
  if bool_decide (s = error_report_text) then Loaded (PDict error_report)
  else stub_loads s.

(** The text [{"files": []}]. *)
Definition files_list_text : text :=
  T "{" ++ [34%N] ++ T "files" ++ [34%N] ++ T ": []}".

(** [stub_loads] with that document. *)
Definition stub_loads_files (s : text) : loads_result :=
  if bool_decide (s = files_list_text) then Loaded (PDict {[ T "files" := PList [] ]})
  else stub_loads s.

(** An integer literal of 4301 digits, all of them 1. *)
Definition long_integer : text := repeat 49%N 4301.

Definition is_digit (c : N) : bool := (48 <=? c)%N && (c <=? 57)%N.

(** A text that is one integer literal (digits only, the first not 0) of
    more than 4300 digits, the interpreter's default limit. *)
Definition over_digit_limit (s : text) : bool :=
  match s with
  | c :: _ => negb (c =? 48)%N && forallb is_digit s && (4300 <? length s)%nat
  | [] => false
  end.

(** [stub_loads] under that limit: on such a literal [json.loads] raises a
    plain [ValueError]. *)
Definition stub_loads_limit (s : text) : loads_result :=
  if over_digit_limit s then Fault DigitLimit else stub_loads s.

(** A container whose port ["80/tcp"] is reported as [null] on the first
    two reloads and as bound to host port 32768 from the third on. *)
Definition late_ports (k : nat) : outcome pyval :=
  if (k <? 3)%nat then Ok (PDict {[ T "80/tcp" := PNone ]})
  else Ok (PDict {[ T "80/tcp" :=
                      PList [PDict {[ T "HostPort" := PStr (T "32768") ]}] ]}).

(* ================================================================== *)
(** * Facts about the string functions                                 *)
(* ================================================================== *)

Section TextFacts.

Implicit Types (p s r x y : text) (c : N).

Lemma str_startswith_app_same p r : str_startswith p (p ++ r) = true.
Proof.
  induction p as [|a p IH]; simpl; [done|].
  by rewrite N.eqb_refl, IH.
Qed.

Lemma str_startswith_true p s : str_startswith p s = true -> exists r, s = p ++ r.
Proof.
  revert s. induction p as [|a p IH]; intros s H; simpl in *.
  - by exists s.
  - destruct s as [|b s]; [done|].
    apply andb_true_iff in H as [Hab Hps].
    apply N.eqb_eq in Hab as ->.
    destruct (IH _ Hps) as [r ->]. by exists r.
Qed.

Lemma str_startswith_longer p x y :
  (length p <= length x)%nat -> str_startswith p (x ++ y) = str_startswith p x.
Proof.
  revert x. induction p as [|a p IH]; intros x Hlen; simpl in *.
  - by destruct x.
  - destruct x as [|b x]; simpl in *; [lia|].
    rewrite IH by lia. done.
Qed.

Lemma str_startswith_nil p : p <> [] -> str_startswith p [] = false.
Proof. by destruct p. Qed.

Lemma str_find_unfold p s :
  str_find p s =
    if str_startswith p s then Some 0%nat
    else match s with [] => None | _ :: s' => S <$> str_find p s' end.
Proof. by destruct s. Qed.

Lemma str_find_Some p s j :
  str_find p s = Some j -> exists a r, s = a ++ p ++ r /\ length a = j.
Proof.
  revert j. induction s as [|b s IH]; intros j; rewrite str_find_unfold.
  - destruct (str_startswith p []) eqn:E; [|done].
    intros [= <-]. apply str_startswith_true in E as [r Hr]. by exists [], r.
  - destruct (str_startswith p (b :: s)) eqn:E.
    + intros [= <-]. apply str_startswith_true in E as [r Hr]. by exists [], r.
    + destruct (str_find p s) as [k|] eqn:F; simpl; [|done].
      intros [= <-]. destruct (IH k eq_refl) as (a & r & -> & Ha).
      exists (b :: a), r. simpl. by rewrite Ha.
Qed.

Lemma str_find_occurrence p a r : exists j, str_find p (a ++ p ++ r) = Some j.
Proof.
  induction a as [|b a [j IH]]; simpl app; rewrite str_find_unfold.
  - rewrite str_startswith_app_same. by exists 0%nat.
  - destruct (str_startswith p (b :: a ++ p ++ r)); [by exists 0%nat|].
    rewrite IH. by exists (S j).
Qed.

Lemma str_in_true p s : str_in p s = true <-> exists a r, s = a ++ p ++ r.
Proof.
  unfold str_in. split.
  - destruct (str_find p s) as [j|] eqn:E; [|done].
    intros _. destruct (str_find_Some _ _ _ E) as (a & r & H & _). by exists a, r.
  - intros (a & r & ->). by destruct (str_find_occurrence p a r) as [j ->].
Qed.

(** The first occurrence of [p] in [x ++ p] stays the first one when text is
    appended. *)
Lemma str_find_first_app p x y :
  str_find p (x ++ p) = Some (length x) -> str_find p (x ++ p ++ y) = Some (length x).
Proof.
  induction x as [|b x IH]; simpl app; simpl length; intros H.
  - rewrite str_find_unfold, str_startswith_app_same. done.
  - rewrite str_find_unfold in H. rewrite str_find_unfold.
    replace (b :: x ++ p ++ y) with ((b :: x ++ p) ++ y) by (simpl; by rewrite <- app_assoc).
    rewrite str_startswith_longer by (simpl; rewrite length_app; lia).
    destruct (str_startswith p (b :: x ++ p)); [done|].
    simpl.
    destruct (str_find p (x ++ p)) as [k|] eqn:F; simpl in H; [|done].
    injection H as ->. by rewrite IH.
Qed.

(** *** [strip] *)

Lemma str_lstrip_idem s : str_lstrip (str_lstrip s) = str_lstrip s.
Proof.
  induction s as [|c s IH]; simpl; [done|].
  destruct (is_space c) eqn:E; [done|]. simpl. by rewrite E.
Qed.

Lemma str_lstrip_snoc s c : is_space c = false -> str_lstrip (s ++ [c]) = str_lstrip s ++ [c].
Proof.
  intros Hc. induction s as [|b s IH]; simpl.
  - by rewrite Hc.
  - by destruct (is_space b).
Qed.

Lemma str_rstrip_cons c s : is_space c = false -> str_rstrip (c :: s) = c :: str_rstrip s.
Proof.
  intros Hc. unfold str_rstrip. simpl.
  rewrite str_lstrip_snoc by done. by rewrite rev_app_distr.
Qed.

Lemma str_rstrip_idem s : str_rstrip (str_rstrip s) = str_rstrip s.
Proof. unfold str_rstrip. by rewrite rev_involutive, str_lstrip_idem. Qed.

Lemma str_lstrip_rstrip_lstrip s :
  str_lstrip (str_rstrip (str_lstrip s)) = str_rstrip (str_lstrip s).
Proof.
  induction s as [|c s IH]; simpl; [done|].
  destruct (is_space c) eqn:E; [done|].
  rewrite str_rstrip_cons by done. simpl. by rewrite E.
Qed.

Lemma str_strip_idem s : str_strip (str_strip s) = str_strip s.
Proof.
  unfold str_strip. by rewrite str_lstrip_rstrip_lstrip, str_rstrip_idem.
Qed.

(** *** [split] *)

Lemma split_scan_nonempty sep s skip cur : (1 <= length (split_scan sep skip cur s))%nat.
Proof.
  revert skip cur. induction s as [|c s IH]; intros skip cur; simpl; [lia|].
  destruct skip; [|apply IH].
  destruct (str_startswith sep (c :: s)); simpl; [lia|apply IH].
Qed.

Lemma split_scan_two sep s cur j :
  sep <> [] -> str_find sep s = Some j -> (2 <= length (split_scan sep 0 cur s))%nat.
Proof.
  intros Hsep. revert cur j. induction s as [|c s IH]; intros cur j; rewrite str_find_unfold.
  - by rewrite str_startswith_nil.
  - simpl. destruct (str_startswith sep (c :: s)).
    + intros _. simpl. pose proof (split_scan_nonempty sep s (length sep - 1) []). lia.
    + destruct (str_find sep s) as [k|] eqn:F; [|done]. intros _. by eapply IH.
Qed.

End TextFacts.

(* ================================================================== *)
(** * Facts about the pattern [open.*?close]                          *)
(* ================================================================== *)

Section SpanFacts.

(** The two markers; the regular expression is [o.*?c]. *)
Variables o c : text.
Hypothesis o_nonempty : o <> [].

Lemma re_match_lazy_unfold rest s :
  re_match (LazyAny :: rest) s =
    match re_match rest s with
    | Some n => Some n
    | None => match s with [] => None | _ :: s' => S <$> re_match (LazyAny :: rest) s' end
    end.
Proof. by destruct s. Qed.

Lemma re_match_lit l s :
  re_match [Lit l] s = if str_startswith l s then Some (length l + 0)%nat else None.
Proof. simpl. by destruct (str_startswith l s). Qed.

(** The lazy star followed by a literal stops at the first occurrence of
    the literal. *)
Lemma re_match_lazy_lit s :
  re_match [LazyAny; Lit c] s = (fun j => (j + (length c + 0))%nat) <$> str_find c s.
Proof.
  induction s as [|b s IH]; rewrite re_match_lazy_unfold, re_match_lit, str_find_unfold.
  - by destruct (str_startswith c []).
  - destruct (str_startswith c (b :: s)); [done|].
    rewrite IH. by destruct (str_find c s).
Qed.

Lemma re_match_span s :
  re_match (span_re o c) s =
    if str_startswith o s
    then (fun j => (length o + (j + (length c + 0)))%nat) <$> str_find c (drop (length o) s)
    else None.
Proof.
  unfold span_re. change (re_match [Lit o; LazyAny; Lit c] s) with
    (if str_startswith o s
     then (fun n => (length o + n)%nat) <$> re_match [LazyAny; Lit c] (drop (length o) s)
     else None).
  destruct (str_startswith o s); [|done].
  rewrite re_match_lazy_lit. by destruct (str_find c _).
Qed.

(** A match of the pattern is an opening marker, some text, and a closing
    marker. *)
Lemma re_match_span_Some s n :
  re_match (span_re o c) s = Some n -> exists mid post, s = o ++ mid ++ c ++ post.
Proof.
  rewrite re_match_span. destruct (str_startswith o s) eqn:E; [|done].
  apply str_startswith_true in E as [r ->].
  rewrite drop_app_length.
  destruct (str_find c r) as [j|] eqn:F; [|done]. intros _.
  destruct (str_find_Some _ _ _ F) as (a & r' & -> & _). by exists a, r'.
Qed.

Lemma re_sub_scan_skip (pattern : regex) k s :
  re_sub_scan pattern k s = re_sub_scan pattern 0 (drop k s).
Proof.
  revert k. induction s as [|b s IH]; intros k.
  - by rewrite drop_nil.
  - destruct k; [done|]. simpl. apply IH.
Qed.

Lemma re_sub_match (pattern : regex) s n :
  re_match pattern s = Some (S n) -> re_sub pattern s = re_sub pattern (drop (S n) s).
Proof.
  unfold re_sub. destruct s as [|b s]; intros H; [done|].
  simpl. rewrite H. apply re_sub_scan_skip.
Qed.

Lemma re_sub_no_match (pattern : regex) b s :
  re_match pattern (b :: s) = None -> re_sub pattern (b :: s) = b :: re_sub pattern s.
Proof. unfold re_sub. simpl. by intros ->. Qed.

(** The first matched pair is removed, up to the first closing marker, and
    the substitution goes on behind it. *)
Lemma re_sub_span pre mid post :
  str_find o (pre ++ o) = Some (length pre) ->
  str_find c (mid ++ c) = Some (length mid) ->
  re_sub (span_re o c) (pre ++ o ++ mid ++ c ++ post) = pre ++ re_sub (span_re o c) post.
Proof.
  intros Ho Hc. induction pre as [|b pre IH]; simpl app.
  - destruct (length o) as [|k] eqn:El; [exfalso; apply o_nonempty; by apply nil_length_inv|].
    assert (Hm : re_match (span_re o c) (o ++ mid ++ c ++ post)
                 = Some (S (k + (length mid + (length c + 0))))).
    { rewrite re_match_span, str_startswith_app_same, drop_app_length.
      rewrite (str_find_first_app c mid post Hc). simpl. f_equal. lia. }
    rewrite (re_sub_match _ _ _ Hm). f_equal.
    replace (S (k + (length mid + (length c + 0)))) with (length (o ++ mid ++ c))
      by (rewrite !length_app; lia).
    replace (o ++ mid ++ c ++ post) with ((o ++ mid ++ c) ++ post)
      by (by rewrite <- !app_assoc).
    apply drop_app_length.
  - change ((b :: pre) ++ o) with (b :: (pre ++ o)) in Ho.
    rewrite str_find_unfold in Ho.
    destruct (str_startswith o (b :: pre ++ o)) eqn:E; [done|].
    destruct (str_find o (pre ++ o)) as [k|] eqn:F; simpl in Ho; [|done].
    injection Ho as ->.
    rewrite re_sub_no_match.
    + f_equal. by apply IH.
    + rewrite re_match_span.
      replace (b :: pre ++ o ++ mid ++ c ++ post) with ((b :: pre ++ o) ++ mid ++ c ++ post)
        by (simpl; by rewrite <- app_assoc).
      rewrite str_startswith_longer by (simpl; rewrite length_app; lia).
      by rewrite E.
Qed.

(** Without a matched pair nothing is removed. *)
Lemma re_sub_no_span s :
  (forall pre mid post, s <> pre ++ o ++ mid ++ c ++ post) -> re_sub (span_re o c) s = s.
Proof.
  induction s as [|b s IH]; intros H; [done|].
  rewrite re_sub_no_match.
  - f_equal. apply IH. intros pre mid post ->. by apply (H (b :: pre) mid post).
  - destruct (re_match (span_re o c) (b :: s)) as [n|] eqn:E; [|done].
    destruct (re_match_span_Some _ _ E) as (mid & post & Hs).
    by destruct (H [] mid post).
Qed.

End SpanFacts.

(* ================================================================== *)
(** * Extraction never fails outside [json.loads]                      *)
(* ================================================================== *)

Section ExtractionFacts.

Context (json_loads : text -> loads_result).

Lemma outcome_bind_Ok {A B : Type} (a : A) (f : A -> outcome B) : (Ok a ≫= f) = f a.
Proof. reflexivity. Qed.

Lemma outcome_bind_Raise {A B : Type} (e : exn) (f : A -> outcome B) :
  (Raise e ≫= f) = Raise e.
Proof. reflexivity. Qed.

Lemma str_split_ok sep s : sep <> [] -> str_split sep s = Ok (split_scan sep 0 [] s).
Proof. intros H. unfold str_split, split_parts. by destruct sep. Qed.

(** [text.split(sep)[1].split(sep')[0]] is defined whenever [sep in text]. *)
Lemma split_second_first sep sep' s :
  sep <> [] -> sep' <> [] -> str_in sep s = true ->
  exists inner body,
    py_index (split_scan sep 0 [] s) 1 = Ok inner /\
    py_index (split_scan sep' 0 [] inner) 0 = Ok body.
Proof.
  intros Hsep Hsep' Hin. unfold str_in in Hin.
  destruct (str_find sep s) as [j|] eqn:F; [|done].
  pose proof (split_scan_two sep s [] j Hsep F) as Hlen.
  destruct (lookup_lt_is_Some_2 (split_scan sep 0 [] s) 1 ltac:(lia)) as [inner Hinner].
  pose proof (split_scan_nonempty sep' inner 0 []) as Hlen'.
  destruct (lookup_lt_is_Some_2 (split_scan sep' 0 [] inner) 0 ltac:(lia)) as [body Hbody].
  exists inner, body. unfold py_index. by rewrite Hinner, Hbody.
Qed.

Lemma unwrap_code_block_total s : exists s', unwrap_code_block s = Ok s'.
Proof.
  unfold unwrap_code_block.
  destruct (str_in (T "```json") s) eqn:E1; [|destruct (str_in (T "```") s) eqn:E2].
  - destruct (split_second_first (T "```json") (T "```") s) as (inner & body & H1 & H2);
      [done..|].
    exists (str_strip body).
    rewrite (str_split_ok (T "```json") s), outcome_bind_Ok, H1, outcome_bind_Ok by done.
    by rewrite (str_split_ok (T "```") inner), outcome_bind_Ok, H2 by done.
  - destruct (split_second_first (T "```") (T "```") s) as (inner & body & H1 & H2);
      [done..|].
    exists (str_strip body).
    rewrite (str_split_ok (T "```") s), outcome_bind_Ok, H1, outcome_bind_Ok by done.
    by rewrite (str_split_ok (T "```") inner), outcome_bind_Ok, H2 by done.
  - eauto.
Qed.

(** [parse_json_response] returns what [json.loads] returns, or raises what
    it raises. *)
Lemma parse_json_response_cases raw :
  (exists v, parse_json_response json_loads raw = Ok v) \/
  (exists msg, parse_json_response json_loads raw = Raise (JSONDecodeError msg)) \/
  (exists f, parse_json_response json_loads raw = Raise (fault_exn f)).
Proof.
  unfold parse_json_response.
  destruct (unwrap_code_block_total (remove_think_tags (str_strip raw))) as [s ->].
  rewrite outcome_bind_Ok. destruct (json_loads s); simpl; eauto.
Qed.

Lemma schema_error_raw msg raw : py_getitem (schema_error msg raw) (T "raw") = Ok (PStr raw).
Proof. reflexivity. Qed.

Lemma code_error_raw msg raw : py_getitem (code_error msg raw) (T "raw") = Ok (PStr raw).
Proof. reflexivity. Qed.

Lemma review_error_raw msg raw : py_getitem (review_error msg raw) (T "raw") = Ok (PStr raw).
Proof. reflexivity. Qed.

End ExtractionFacts.

(* ================================================================== *)
(** * The stages and the loop body                                     *)
(* ================================================================== *)

Section LoopFacts.

Context (json_loads : text -> loads_result).
Context (final_output : trace -> Agent -> prompt -> text).
Context (features ai_techstack : list text) (max_iterations : Z) (verbose : bool).
Context (file_schema : pyval).

Local Abbreviation parse := (parse_json_response json_loads).
Local Abbreviation body :=
  (loop_body json_loads final_output features ai_techstack verbose file_schema).
Local Abbreviation loop :=
  (coding_review_loop json_loads final_output features ai_techstack max_iterations
     verbose file_schema).
Local Abbreviation run_from :=
  (loop_from json_loads final_output features ai_techstack max_iterations
     verbose file_schema).
Local Abbreviation guard := (loop_guard max_iterations).

Lemma M_bind_run {A B : Type} (m : M A) (f : A -> M B) (tr : trace) :
  (m ≫= f) tr =
    match m tr with
    | (Ok a, tr') => f a tr'
    | (Raise e, tr') => (Raise e, tr')
    end.
Proof. reflexivity. Qed.

Lemma calls_to_snoc a tr c :
  calls_to a (tr ++ [c]) = (calls_to a tr + (if is_agent a (call_agent c) then 1 else 0))%nat.
Proof.
  unfold calls_to. rewrite List.filter_app, length_app. f_equal.
  simpl. by destruct (is_agent a (call_agent c)).
Qed.

Lemma generate_code_run fs fe te code feedback tr :
  generate_code json_loads final_output fs fe te code feedback tr =
    (code_of_response json_loads
       (final_output tr coding_agent (CodePrompt fs fe te code feedback)),
     tr ++ [Call coding_agent (CodePrompt fs fe te code feedback)]).
Proof. reflexivity. Qed.

Lemma review_code_run fs fe code tr :
  review_code json_loads final_output fs fe code tr =
    (review_of_response json_loads
       (final_output tr code_reviewer_agent (ReviewPrompt fs fe code)),
     tr ++ [Call code_reviewer_agent (ReviewPrompt fs fe code)]).
Proof. reflexivity. Qed.

Lemma generate_file_schema_run fe te tr :
  generate_file_schema json_loads final_output fe te tr =
    (schema_of_response json_loads (final_output tr file_schema_agent (SchemaPrompt fe te)),
     tr ++ [Call file_schema_agent (SchemaPrompt fe te)]).
Proof. reflexivity. Qed.

Lemma generate_documentation_run info fs code fe tr :
  generate_documentation final_output info fs code fe tr =
    (Ok (remove_think_tags (str_strip
           (final_output tr documentation_agent (DocPrompt info fs code fe)))),
     tr ++ [Call documentation_agent (DocPrompt info fs code fe)]).
Proof. reflexivity. Qed.

(** A stage whose answer does not parse returns its error dictionary. *)
Lemma code_of_response_error raw msg :
  parse raw = Raise (JSONDecodeError msg) ->
  code_of_response json_loads raw = Ok (code_error msg raw).
Proof. unfold code_of_response. by intros ->. Qed.


Lemma schema_of_response_error raw msg :
  parse raw = Raise (JSONDecodeError msg) ->
  schema_of_response json_loads raw = Ok (schema_error msg raw).
Proof. unfold schema_of_response. by intros ->. Qed.

Lemma code_failed_code_error msg raw : code_failed (code_error msg raw) = Ok true.
Proof. reflexivity. Qed.

(** The loop body asks the coding agent exactly once, the reviewer at most
    once, and a body that returns has advanced the counter by one. *)
Lemma loop_body_effect st tr o tr' :
  body st tr = (o, tr') ->
  calls_to coding_agent tr' = S (calls_to coding_agent tr) /\
  (calls_to code_reviewer_agent tr' <= S (calls_to code_reviewer_agent tr))%nat /\
  calls_to documentation_agent tr' = calls_to documentation_agent tr /\
  (forall st', o = Ok st' -> iteration st' = iteration st + 1).
Proof.
  unfold loop_body. rewrite M_bind_run, generate_code_run.
  set (tr1 := tr ++ [Call coding_agent _]).
  assert (H1 : calls_to coding_agent tr1 = S (calls_to coding_agent tr))
    by (unfold tr1; rewrite calls_to_snoc; simpl; lia).
  assert (H2 : calls_to code_reviewer_agent tr1 = calls_to code_reviewer_agent tr)
    by (unfold tr1; rewrite calls_to_snoc; simpl; lia).
  assert (H3 : calls_to documentation_agent tr1 = calls_to documentation_agent tr)
    by (unfold tr1; rewrite calls_to_snoc; simpl; lia).
  destruct (code_of_response _ _) as [code_result|e];
    [|intros [= <- <-]; repeat split; [done|lia|done|done]].
  rewrite M_bind_run. unfold lift at 1.
  destruct (code_failed code_result) as [[|]|e];
    [intros [= <- <-]; repeat split; [done|lia|done|by intros ? [= <-]]
    | | intros [= <- <-]; repeat split; [done|lia|done|done]].
  rewrite M_bind_run. unfold lift at 1.
  destruct (py_get code_result _ _) as [code'|e];
    [|intros [= <- <-]; repeat split; [done|lia|done|done]].
  rewrite M_bind_run. unfold lift at 1.
  destruct (py_when verbose _) as [[]|e];
    [|intros [= <- <-]; repeat split; [done|lia|done|done]].
  rewrite M_bind_run, review_code_run.
  set (tr2 := tr1 ++ [Call code_reviewer_agent _]).
  assert (H1' : calls_to coding_agent tr2 = S (calls_to coding_agent tr))
    by (unfold tr2; rewrite calls_to_snoc; simpl; lia).
  assert (H2' : calls_to code_reviewer_agent tr2 = S (calls_to code_reviewer_agent tr))
    by (unfold tr2; rewrite calls_to_snoc; simpl; lia).
  assert (H3' : calls_to documentation_agent tr2 = calls_to documentation_agent tr)
    by (unfold tr2; rewrite calls_to_snoc; simpl; lia).
  destruct (review_of_response _ _) as [review_result|e];
    [|intros [= <- <-]; repeat split; [done|lia|done|done]].
  rewrite M_bind_run. unfold lift at 1.
  destruct (py_get review_result _ _) as [approved'|e];
    [|intros [= <- <-]; repeat split; [done|lia|done|done]].
  rewrite M_bind_run. unfold lift at 1.
  destruct (py_get review_result _ _) as [feedback'|e];
    [|intros [= <- <-]; repeat split; [done|lia|done|done]].
  rewrite M_bind_run. unfold lift at 1.
  destruct (py_when verbose _) as [[]|e];
    intros [= <- <-]; repeat split; [done|lia|done|by intros ? [= <-]|done|lia|done|done].
Qed.

(** The body when the code stage fails to parse the answer: the counter
    advances and nothing else happens. *)
Lemma loop_body_code_error st tr msg :
  parse (final_output tr coding_agent
           (CodePrompt file_schema features ai_techstack
              (current_code st) (review_feedback st)))
    = Raise (JSONDecodeError msg) ->
  body st tr =
    (Ok (LoopState (current_code st) (review_feedback st) (iteration st + 1) (approved st)),
     tr ++ [Call coding_agent
              (CodePrompt file_schema features ai_techstack
                 (current_code st) (review_feedback st))]).
Proof.
  intros H. unfold loop_body.
  rewrite M_bind_run, generate_code_run, (code_of_response_error _ _ H).
  rewrite M_bind_run. unfold lift at 1. by rewrite code_failed_code_error.
Qed.

(** The body when the code stage succeeds and the review has been read. *)
Lemma loop_body_reviewed st tr code_result code' review_result approved' feedback' :
  let tr1 := tr ++ [Call coding_agent
                      (CodePrompt file_schema features ai_techstack
                         (current_code st) (review_feedback st))] in
  let tr2 := tr1 ++ [Call code_reviewer_agent (ReviewPrompt file_schema features code')] in
  code_of_response json_loads
    (final_output tr coding_agent
       (CodePrompt file_schema features ai_techstack (current_code st) (review_feedback st)))
    = Ok code_result ->
  code_failed code_result = Ok false ->
  py_get code_result (T "files") (PDict ∅) = Ok code' ->
  py_when verbose (_ ← py_len code'; Ok tt) = Ok tt ->
  review_of_response json_loads
    (final_output tr1 code_reviewer_agent (ReviewPrompt file_schema features code'))
    = Ok review_result ->
  py_get review_result (T "approved") (PBool false) = Ok approved' ->
  py_get review_result (T "feedback_for_coder") (PStr []) = Ok feedback' ->
  py_when verbose (print_review review_result approved') = Ok tt ->
  body st tr = (Ok (LoopState code' feedback' (iteration st + 1) approved'), tr2).
Proof.
  intros tr1 tr2 Hcode Hfailed Hfiles Hlen Hreview Happroved Hfeedback Hprint.
  unfold loop_body.
  rewrite M_bind_run, generate_code_run, Hcode.
  rewrite M_bind_run. unfold lift at 1. rewrite Hfailed.
  rewrite M_bind_run. unfold lift at 1. rewrite Hfiles.
  rewrite M_bind_run. unfold lift at 1. rewrite Hlen.
  rewrite M_bind_run, review_code_run. fold tr1. rewrite Hreview.
  rewrite M_bind_run. unfold lift at 1. rewrite Happroved.
  rewrite M_bind_run. unfold lift at 1. rewrite Hfeedback.
  rewrite M_bind_run. unfold lift at 1. by rewrite Hprint.
Qed.

(** *** The loop *)

Lemma loop_from_stop dist st tr : guard st = false -> run_from dist st tr = (Ok st, tr).
Proof. intros H. destruct dist; simpl; [done|]. by rewrite H. Qed.

(** [coding_review_loop] satisfies the equation of the [while] statement. *)
Lemma coding_review_loop_unfold st tr :
  loop st tr = if guard st then (body st ≫= loop) tr else (Ok st, tr).
Proof.
  unfold coding_review_loop. destruct (guard st) eqn:G.
  - assert (iteration st < max_iterations) as Hlt.
    { unfold loop_guard in G. apply andb_true_iff in G as [_ G]. lia. }
    replace (Z.to_nat (max_iterations - iteration st))
      with (S (Z.to_nat (max_iterations - (iteration st + 1)))) by lia.
    simpl. rewrite G, !M_bind_run.
    destruct (body st tr) as [[st'|e] tr'] eqn:B; [|done].
    destruct (loop_body_effect _ _ _ _ B) as (_ & _ & _ & Hit).
    by rewrite (Hit st' eq_refl).
  - by apply loop_from_stop.
Qed.



(** The loop asks the coding agent at most once per unit of distance to the
    ceiling, and never asks for documentation. *)
Lemma loop_from_calls dist st tr :
  (calls_to coding_agent (run_from dist st tr).2 <= calls_to coding_agent tr + dist)%nat /\
  calls_to documentation_agent (run_from dist st tr).2 = calls_to documentation_agent tr.
Proof.
  revert st tr. induction dist as [|dist IH]; intros st tr; simpl; [split; [lia|done]|].
  destruct (guard st); [|simpl; split; [lia|done]].
  rewrite M_bind_run. destruct (body st tr) as [[st'|e] tr'] eqn:B.
  - destruct (loop_body_effect _ _ _ _ B) as (Hc & _ & Hd & _).
    destruct (IH st' tr') as [IH1 IH2]. split; [lia|congruence].
  - destruct (loop_body_effect _ _ _ _ B) as (Hc & _ & Hd & _). simpl. split; [lia|done].
Qed.

(** When no answer of the coding agent parses, the loop runs to the ceiling
    and changes nothing but the counter. *)
Lemma loop_from_all_code_errors dist st tr :
  (forall tr0 p, exists msg,
      parse (final_output tr0 coding_agent p) = Raise (JSONDecodeError msg)) ->
  truthy (approved st) = false ->
  Z.of_nat dist = max_iterations - iteration st ->
  exists tr',
    run_from dist st tr =
      (Ok (LoopState (current_code st) (review_feedback st) max_iterations (approved st)), tr') /\
    calls_to coding_agent tr' = (calls_to coding_agent tr + dist)%nat /\
    calls_to code_reviewer_agent tr' = calls_to code_reviewer_agent tr.
Proof.
  intros Hfail. revert st tr. induction dist as [|dist IH]; intros st tr Hap Hd.
  - exists tr. simpl. replace max_iterations with (iteration st) by lia.
    destruct st; simpl. repeat split. lia.
  - simpl. unfold loop_guard. rewrite Hap. simpl.
    replace (iteration st <? max_iterations) with true by lia.
    destruct (Hfail tr (CodePrompt file_schema features ai_techstack
                          (current_code st) (review_feedback st))) as [msg Hmsg].
    rewrite M_bind_run, (loop_body_code_error st tr msg Hmsg).
    edestruct (IH (LoopState (current_code st) (review_feedback st)
                     (iteration st + 1) (approved st))) as (tr' & Hrun & Hc & Hr);
      [done|simpl; lia|].
    exists tr'. rewrite Hrun. simpl. split; [done|split].
    + rewrite Hc, calls_to_snoc. simpl. lia.
    + rewrite Hr, calls_to_snoc. simpl. lia.
Qed.

(** *** The claims about one iteration *)

(** C2: on an iteration whose code answer does not parse (the code stage
    returns its CodeError), the body makes the one call to the coding agent
    and none to the reviewer, and the code bundle, the feedback and the
    approval flag are what they were before; only the counter advances. *)
Theorem skip_review_on_code_error st tr msg :
  parse (final_output tr coding_agent
           (CodePrompt file_schema features ai_techstack
              (current_code st) (review_feedback st)))
    = Raise (JSONDecodeError msg) ->
  exists st' tr',
    body st tr = (Ok st', tr') /\
    tr' = tr ++ [Call coding_agent
                   (CodePrompt file_schema features ai_techstack
                      (current_code st) (review_feedback st))] /\
    calls_to code_reviewer_agent tr' = calls_to code_reviewer_agent tr /\
    current_code st' = current_code st /\
    review_feedback st' = review_feedback st /\
    approved st' = approved st /\
    iteration st' = iteration st + 1.
Proof.
  intros H. eexists _, _. split; [by apply (loop_body_code_error st tr msg)|].
  split; [done|]. split; [|done].
  rewrite calls_to_snoc. simpl. lia.
Qed.



End LoopFacts.

(* ================================================================== *)
(** * The driver                                                       *)
(* ================================================================== *)

Section DriverFacts.

Context (json_loads : text -> loads_result).
Context (final_output : trace -> Agent -> prompt -> text).
Context (features ai_techstack : list text) (max_iterations : Z) (verbose : bool).

Local Abbreviation parse := (parse_json_response json_loads).
Local Abbreviation service :=
  (generate_ai_service json_loads final_output features ai_techstack max_iterations verbose).
Local Abbreviation loop :=
  (coding_review_loop json_loads final_output features ai_techstack max_iterations verbose).
Local Abbreviation assemble := (assemble_result final_output features verbose).

(** The project description handed to the documentation stage. *)
Lemma assemble_result_run fs files st tr :
  current_code st = PDict files ->
  let name := default (PStr (T "ai_service")) (fs !! T "project_name") in
  let description := default (PStr (T "FastAPI AI Service")) (fs !! T "description") in
  let p := DocPrompt (py_dict [(T "name", name); (T "description", description)])
             (PDict fs) (PDict files) features in
  let documentation := remove_think_tags (str_strip (final_output tr documentation_agent p)) in
  assemble (PDict fs) st tr =
    (Ok (py_dict [(T "files", PDict (<[doc_key := PStr documentation]> files));
                  (T "schema", PDict fs);
                  (T "iterations", PInt (iteration st));
                  (T "approved", approved st);
                  (T "project_name", name)]),
     tr ++ [Call documentation_agent p]).
Proof.
  intros Hcode name description p documentation. unfold assemble_result.
  rewrite M_bind_run. unfold lift at 1. simpl py_get. cbv beta iota.
  rewrite M_bind_run. unfold lift at 1. simpl py_get. cbv beta iota.
  rewrite M_bind_run, generate_documentation_run, Hcode.
  rewrite M_bind_run. unfold lift at 1. simpl py_setitem. cbv beta iota.
  rewrite M_bind_run. unfold lift at 1. by destruct verbose.
Qed.

(** Whatever it ends in, assembling the result asks the coding agent and
    the reviewer nothing. *)
Lemma assemble_result_calls fs st tr :
  calls_to coding_agent (assemble fs st tr).2 = calls_to coding_agent tr.
Proof.
  unfold assemble_result.
  rewrite M_bind_run. unfold lift at 1.
  destruct (py_get fs _ _) as [name|e]; [|done].
  rewrite M_bind_run. unfold lift at 1.
  destruct (py_get fs _ _) as [description|e]; [|done].
  rewrite M_bind_run, generate_documentation_run.
  set (tr1 := tr ++ [_]).
  assert (H : calls_to coding_agent tr1 = calls_to coding_agent tr)
    by (unfold tr1; rewrite calls_to_snoc; simpl; lia).
  rewrite M_bind_run. unfold lift at 1.
  destruct (py_setitem _ _ _) as [code'|e]; [|done].
  rewrite M_bind_run. unfold lift at 1.
  by destruct (py_when verbose _) as [[]|e].
Qed.

(** The driver after a schema stage that returned [fs] without an "error". *)
Lemma generate_ai_service_run fs tr :
  schema_of_response json_loads
    (final_output tr file_schema_agent (SchemaPrompt features ai_techstack)) = Ok fs ->
  py_in (T "error") fs = Ok false ->
  py_when verbose (print_schema_files fs) = Ok tt ->
  service tr =
    (loop fs initial_state ≫= assemble fs)
      (tr ++ [Call file_schema_agent (SchemaPrompt features ai_techstack)]).
Proof.
  intros Hschema Herror Hprint. unfold generate_ai_service.
  rewrite M_bind_run, generate_file_schema_run, Hschema.
  rewrite M_bind_run. unfold lift at 1. rewrite Herror.
  rewrite M_bind_run. unfold lift at 1. by rewrite Hprint.
Qed.

(** The driver asks the coding agent only inside the loop. *)
Lemma generate_ai_service_calls tr :
  (calls_to coding_agent (service tr).2
   <= calls_to coding_agent tr + Z.to_nat max_iterations)%nat.
Proof.
  unfold generate_ai_service.
  rewrite M_bind_run, generate_file_schema_run.
  set (tr1 := tr ++ [_]).
  assert (H : calls_to coding_agent tr1 = calls_to coding_agent tr)
    by (unfold tr1; rewrite calls_to_snoc; simpl; lia).
  destruct (schema_of_response _ _) as [fs|e]; [|simpl; lia].
  rewrite M_bind_run. unfold lift at 1.
  destruct (py_in _ fs) as [[|]|e]; [| |simpl; lia].
  - rewrite M_bind_run. unfold lift at 1.
    destruct (py_when verbose _) as [[]|e]; simpl; lia.
  - rewrite M_bind_run. unfold lift at 1.
    destruct (py_when verbose _) as [[]|e]; [|simpl; lia].
    rewrite M_bind_run.
    pose proof (loop_from_calls json_loads final_output features ai_techstack
                  max_iterations verbose fs (Z.to_nat (max_iterations - 0)) initial_state tr1)
      as [Hloop _].
    unfold coding_review_loop. simpl iteration.
    destruct (loop_from _ _ _ _ _ _ _ _ _ tr1) as [[st|e] tr2]; simpl in Hloop |- *.
    + rewrite assemble_result_calls. lia.
    + lia.
Qed.

(** C1: for a ceiling [N >= 1], a run of the driver, and the loop started
    from its initial state, make at most [N] calls to the coding agent,
    whatever the model answers and however the run ends; and when no answer
    of the coding agent parses, the loop returns after exactly [N]
    iterations, each with one code generation and no review, with
    [approved] still [False] and the code bundle still empty. *)
Theorem convergence_loop_terminates :
  1 <= max_iterations ->
  (forall tr,
      Z.of_nat (calls_to coding_agent (service tr).2)
      <= Z.of_nat (calls_to coding_agent tr) + max_iterations) /\
  (forall fs tr,
      Z.of_nat (calls_to coding_agent (loop fs initial_state tr).2)
      <= Z.of_nat (calls_to coding_agent tr) + max_iterations) /\
  ((forall tr p, exists msg,
       parse (final_output tr coding_agent p) = Raise (JSONDecodeError msg)) ->
   forall fs tr, exists st tr',
     loop fs initial_state tr = (Ok st, tr') /\
     iteration st = max_iterations /\
     approved st = PBool false /\
     current_code st = PDict ∅ /\
     Z.of_nat (calls_to coding_agent tr')
     = Z.of_nat (calls_to coding_agent tr) + max_iterations /\
     calls_to code_reviewer_agent tr' = calls_to code_reviewer_agent tr).
Proof.
  intros HN. split; [|split].
  - intros tr. pose proof (generate_ai_service_calls tr). lia.
  - intros fs tr.
    pose proof (loop_from_calls json_loads final_output features ai_techstack
                  max_iterations verbose fs (Z.to_nat (max_iterations - 0)) initial_state tr)
      as [Hloop _].
    unfold coding_review_loop. simpl iteration. lia.
  - intros Hfail fs tr.
    destruct (loop_from_all_code_errors json_loads final_output features ai_techstack
                max_iterations verbose fs (Z.to_nat (max_iterations - 0)) initial_state tr
                Hfail eq_refl) as (tr' & Hrun & Hc & Hr); [simpl; lia|].
    eexists _, tr'. split; [exact Hrun|]. simpl. repeat split; [lia|done].
Qed.

(** C7: when the schema answer does not parse (the schema stage returns its
    SchemaError), the driver returns the dictionary
    [{"error": "Schema generation failed", "details": <the SchemaError>}]
    without raising, and the only call it has made is the one to the schema
    agent: the loop is not entered and no documentation is asked for. *)
Theorem schema_failure_short_circuits tr msg :
  let raw := final_output tr file_schema_agent (SchemaPrompt features ai_techstack) in
  parse raw = Raise (JSONDecodeError msg) ->
  service tr =
    (Ok (schema_failure (schema_error msg raw)),
     tr ++ [Call file_schema_agent (SchemaPrompt features ai_techstack)]) /\
  py_getitem (schema_failure (schema_error msg raw)) (T "error")
  = Ok (PStr (T "Schema generation failed")) /\
  py_getitem (schema_failure (schema_error msg raw)) (T "details")
  = Ok (schema_error msg raw) /\
  calls_to coding_agent (service tr).2 = calls_to coding_agent tr /\
  calls_to code_reviewer_agent (service tr).2 = calls_to code_reviewer_agent tr /\
  calls_to documentation_agent (service tr).2 = calls_to documentation_agent tr.
Proof.
  intros raw Hparse.
  assert (Hrun : service tr =
    (Ok (schema_failure (schema_error msg raw)),
     tr ++ [Call file_schema_agent (SchemaPrompt features ai_techstack)])).
  { unfold generate_ai_service.
    rewrite M_bind_run, generate_file_schema_run.
    fold raw. rewrite (schema_of_response_error _ _ _ Hparse).
    rewrite M_bind_run. unfold lift at 1.
    change (py_in (T "error") (schema_error msg raw)) with (@Ok bool true).
    cbv beta iota.
    rewrite M_bind_run. unfold lift at 1.
    by destruct verbose. }
  rewrite Hrun. simpl snd. rewrite !calls_to_snoc. simpl.
  repeat split; lia.
Qed.

(** Where the injection works: from any state the loop exits in whose code
    bundle is a mapping (empty or not, approved or not), with a schema that
    is an object, the driver asks the documentation agent exactly once,
    about that bundle, stores the answer under "documentation.md"
    (replacing an entry of that name), and returns the result dictionary
    with that bundle, the schema, the iteration count and the approval
    flag. The last part states it for the whole driver, after a schema
    stage and a loop that ended in this state. *)
Lemma documentation_injected_into_mapping fs files st tr :
  current_code st = PDict files ->
  exists result documentation info,
    assemble (PDict fs) st tr =
      (Ok result,
       tr ++ [Call documentation_agent (DocPrompt info (PDict fs) (PDict files) features)]) /\
    documentation =
      remove_think_tags (str_strip
        (final_output tr documentation_agent
           (DocPrompt info (PDict fs) (PDict files) features))) /\
    py_getitem result (T "files") = Ok (PDict (<[doc_key := PStr documentation]> files)) /\
    <[doc_key := PStr documentation]> files !! doc_key = Some (PStr documentation) /\
    (forall path, path <> doc_key ->
       <[doc_key := PStr documentation]> files !! path = files !! path) /\
    py_getitem result (T "schema") = Ok (PDict fs) /\
    py_getitem result (T "iterations") = Ok (PInt (iteration st)) /\
    py_getitem result (T "approved") = Ok (approved st) /\
    calls_to documentation_agent
      (tr ++ [Call documentation_agent (DocPrompt info (PDict fs) (PDict files) features)])
    = S (calls_to documentation_agent tr) /\
    (forall tr0,
        schema_of_response json_loads
          (final_output tr0 file_schema_agent (SchemaPrompt features ai_techstack))
          = Ok (PDict fs) ->
        fs !! T "error" = None ->
        py_when verbose (print_schema_files (PDict fs)) = Ok tt ->
        loop (PDict fs) initial_state
          (tr0 ++ [Call file_schema_agent (SchemaPrompt features ai_techstack)]) = (Ok st, tr) ->
        service tr0 =
          (Ok result,
           tr ++ [Call documentation_agent
                    (DocPrompt info (PDict fs) (PDict files) features)])).
Proof.
  intros Hcode. eexists _, _, _. split; [by apply assemble_result_run|].
  split; [done|]. split; [done|]. split; [by apply lookup_insert_eq|].
  split; [by intros path Hpath; apply lookup_insert_ne|].
  split; [done|]. split; [done|]. split; [done|].
  split; [rewrite calls_to_snoc; simpl; lia|].
  intros tr0 Hschema Herror Hprint Hloop.
  rewrite (generate_ai_service_run (PDict fs) tr0 Hschema); [|by simpl; rewrite Herror|done].
  rewrite M_bind_run, Hloop. by apply assemble_result_run.
Qed.

(** C8: the documentation is not always injected. The driver takes the
    "files" entry of the code answer and the schema answer as they parse,
    without checking that they are mappings. After a schema stage that
    returned [schema] (without an "error" entry) and a loop that exited in
    state [st]: if the schema is an object and the bundle of [st] is no
    mapping (a list, a string, a number), the documentation agent is asked
    and then [current_code["documentation.md"] = documentation] raises a
    [TypeError]; if the schema is no object, [file_schema.get] raises an
    [AttributeError] before the documentation agent is asked. Either way
    the driver raises instead of returning a result. *)
Theorem documentation_injection_raises_on_non_mapping schema st tr0 tr :
  schema_of_response json_loads
    (final_output tr0 file_schema_agent (SchemaPrompt features ai_techstack)) = Ok schema ->
  py_in (T "error") schema = Ok false ->
  py_when verbose (print_schema_files schema) = Ok tt ->
  coding_review_loop json_loads final_output features ai_techstack max_iterations verbose
    schema initial_state
    (tr0 ++ [Call file_schema_agent (SchemaPrompt features ai_techstack)]) = (Ok st, tr) ->
  ((exists fs, schema = PDict fs) ->
   (forall files, current_code st <> PDict files) ->
   exists info,
     generate_ai_service json_loads final_output features ai_techstack max_iterations
       verbose tr0
     = (Raise TypeError,
        tr ++ [Call documentation_agent
                 (DocPrompt info schema (current_code st) features)])) /\
  ((forall fs, schema <> PDict fs) ->
   generate_ai_service json_loads final_output features ai_techstack max_iterations
     verbose tr0
   = (Raise AttributeError, tr)).
Proof.
  intros Hschema Herror Hprint Hloop.
  rewrite (generate_ai_service_run schema tr0 Hschema Herror Hprint).
  rewrite M_bind_run, Hloop. unfold assemble_result. split.
  - intros [fs ->] Hcode. eexists.
    rewrite M_bind_run. unfold lift at 1. simpl py_get. cbv beta iota.
    rewrite M_bind_run. unfold lift at 1. simpl py_get. cbv beta iota.
    rewrite M_bind_run, generate_documentation_run.
    rewrite M_bind_run. unfold lift at 1.
    destruct (current_code st) as [| | | | | |files]; try done. by destruct (Hcode files).
  - intros Hno. rewrite M_bind_run. unfold lift at 1.
    destruct schema as [| | | | | |fs]; try done. by destruct (Hno fs).
Qed.

End DriverFacts.

(* ================================================================== *)
(** * The claims about extraction                                      *)
(* ================================================================== *)

Section ExtractionClaims.

Context (json_loads : text -> loads_result).

Local Abbreviation parse := (parse_json_response json_loads).

(** Where the extraction keeps its promise: for every answer [raw] of the
    model the stripping, the removal of reasoning spans and the unwrapping
    of fenced blocks raise nothing, and when [json.loads] returns a value
    or raises its [JSONDecodeError], each of the schema, code and review
    stages returns that value or its error dictionary, whose "raw" entry is
    [raw] itself. What is left is the third case: [json.loads] raised
    something else. *)
Lemma extraction_outcomes raw :
  (exists v,
      parse raw = Ok v /\
      schema_of_response json_loads raw = Ok v /\
      code_of_response json_loads raw = Ok v /\
      review_of_response json_loads raw = Ok v) \/
  (exists msg,
      parse raw = Raise (JSONDecodeError msg) /\
      schema_of_response json_loads raw = Ok (schema_error msg raw) /\
      code_of_response json_loads raw = Ok (code_error msg raw) /\
      review_of_response json_loads raw = Ok (review_error msg raw) /\
      py_getitem (schema_error msg raw) (T "raw") = Ok (PStr raw) /\
      py_getitem (code_error msg raw) (T "raw") = Ok (PStr raw) /\
      py_getitem (review_error msg raw) (T "raw") = Ok (PStr raw)) \/
  (exists f, parse raw = Raise (fault_exn f)).
Proof.
  destruct (parse_json_response_cases json_loads raw) as [[v Hv]|[[msg Hmsg]|[f Hf]]].
  - left. exists v. unfold schema_of_response, code_of_response, review_of_response.
    by rewrite Hv.
  - right. left. exists msg.
    unfold schema_of_response, code_of_response, review_of_response.
    rewrite Hmsg. repeat split.
  - right. right. by exists f.
Qed.

(** The handler of a stage lets the two other exceptions of [json.loads]
    through. *)
Lemma except_decode_fault {A : Type} (f : loads_fault) (handler : text -> outcome A) :
  except_decode (Raise (fault_exn f)) handler = Raise (fault_exn f).
Proof. by destruct f. Qed.

(** C4: the extraction is not total. Let [s] be what stripping, span
    removal and fence unwrapping leave of an answer [raw] (they raise
    nothing). If [json.loads] raises on [s] an exception that is no
    [JSONDecodeError] (a plain [ValueError] for an integer literal beyond
    the digit limit, a [RecursionError] for too deep a nesting), then
    [parse_json_response] raises it, the handler [except json.JSONDecodeError]
    of the schema, code and review stages does not catch it, and the stage
    raises it after its call to the agent, instead of returning a typed
    failure that carries [raw]. *)
Theorem extraction_raises_on_loads_fault raw s f :
  unwrap_code_block (remove_think_tags (str_strip raw)) = Ok s ->
  json_loads s = Fault f ->
  parse raw = Raise (fault_exn f) /\
  schema_of_response json_loads raw = Raise (fault_exn f) /\
  code_of_response json_loads raw = Raise (fault_exn f) /\
  review_of_response json_loads raw = Raise (fault_exn f) /\
  (forall msg, fault_exn f <> JSONDecodeError msg) /\
  (forall (final_output : trace -> Agent -> prompt -> text) fs fe te code feedback tr,
      final_output tr coding_agent (CodePrompt fs fe te code feedback) = raw ->
      generate_code json_loads final_output fs fe te code feedback tr
      = (Raise (fault_exn f),
         tr ++ [Call coding_agent (CodePrompt fs fe te code feedback)])).
Proof.
  intros Hs Hf.
  assert (Hparse : parse raw = Raise (fault_exn f)).
  { unfold parse_json_response. by rewrite Hs, outcome_bind_Ok, Hf. }
  assert (Hcode : code_of_response json_loads raw = Raise (fault_exn f)).
  { unfold code_of_response. by rewrite Hparse, except_decode_fault. }
  split; [done|]. split.
  { unfold schema_of_response. by rewrite Hparse, except_decode_fault. }
  split; [done|]. split.
  { unfold review_of_response. by rewrite Hparse, except_decode_fault. }
  split; [by destruct f|].
  intros final_output fs fe te code feedback tr Hraw.
  by rewrite generate_code_run, Hraw, Hcode.
Qed.

(** Unless [json.loads] raises one of its two other exceptions, the stages,
    as computations, return. *)
Lemma stages_return (final_output : trace -> Agent -> prompt -> text)
    fs fe te code feedback tr :
  ((exists v, (generate_file_schema json_loads final_output fe te tr).1 = Ok v) \/
   (exists f, (generate_file_schema json_loads final_output fe te tr).1
              = Raise (fault_exn f))) /\
  ((exists v, (generate_code json_loads final_output fs fe te code feedback tr).1 = Ok v) \/
   (exists f, (generate_code json_loads final_output fs fe te code feedback tr).1
              = Raise (fault_exn f))) /\
  ((exists v, (review_code json_loads final_output fs fe code tr).1 = Ok v) \/
   (exists f, (review_code json_loads final_output fs fe code tr).1
              = Raise (fault_exn f))).
Proof.
  rewrite generate_file_schema_run, generate_code_run, review_code_run. simpl.
  unfold schema_of_response, code_of_response, review_of_response.
  repeat split.
  - destruct (parse_json_response_cases json_loads
                (final_output tr file_schema_agent (SchemaPrompt fe te)))
      as [[v ->]|[[msg ->]|[f ->]]]; simpl; eauto.
    right. exists f. apply except_decode_fault.
  - destruct (parse_json_response_cases json_loads
                (final_output tr coding_agent (CodePrompt fs fe te code feedback)))
      as [[v ->]|[[msg ->]|[f ->]]]; simpl; eauto.
    right. exists f. apply except_decode_fault.
  - destruct (parse_json_response_cases json_loads
                (final_output tr code_reviewer_agent (ReviewPrompt fs fe code)))
      as [[v ->]|[[msg ->]|[f ->]]]; simpl; eauto.
    right. exists f. apply except_decode_fault.
Qed.

End ExtractionClaims.

(** C5: (1) a reasoning span, from the first opening marker of the text to
    the first closing marker behind it, is removed together with its
    markers, wherever it stands, and the removal goes on in the text behind
    it; the step of the parser returns the result stripped. (2) On a
    stripped answer without a matched pair of markers, in particular one
    whose opening marker is never closed, nothing is removed and the step
    returns the text as it was. *)
Theorem think_span_removal :
  (forall pre mid post,
      str_find think_open (pre ++ think_open) = Some (length pre) ->
      str_find think_close (mid ++ think_close) = Some (length mid) ->
      re_sub think_re (pre ++ think_open ++ mid ++ think_close ++ post)
      = pre ++ re_sub think_re post /\
      remove_think_tags (pre ++ think_open ++ mid ++ think_close ++ post)
      = str_strip (pre ++ re_sub think_re post)) /\
  (forall raw,
      (forall pre mid post,
          str_strip raw <> pre ++ think_open ++ mid ++ think_close ++ post) ->
      re_sub think_re (str_strip raw) = str_strip raw /\
      remove_think_tags (str_strip raw) = str_strip raw).
Proof.
  split.
  - intros pre mid post Ho Hc.
    assert (H : re_sub think_re (pre ++ think_open ++ mid ++ think_close ++ post)
                = pre ++ re_sub think_re post)
      by (by apply re_sub_span).
    split; [done|]. unfold remove_think_tags. rewrite H.
    replace (str_in think_open (pre ++ think_open ++ mid ++ think_close ++ post))
      with true; [done|].
    symmetry. apply str_in_true. by exists pre, (mid ++ think_close ++ post).
  - intros raw Hno.
    assert (H : re_sub think_re (str_strip raw) = str_strip raw)
      by (by apply re_sub_no_span).
    split; [done|]. unfold remove_think_tags. rewrite H, str_strip_idem.
    by destruct (str_in think_open (str_strip raw)).
Qed.

(* ================================================================== *)
(** * The requirements and database agents                             *)
(* ================================================================== *)

Section OtherAgents.

Context (json_loads : text -> loads_result).
Context (final_output : trace -> Agent -> prompt -> text).

Lemma analyze_requirements_run p tr :
  analyze_requirements json_loads final_output p tr =
    (requirements_of_response json_loads (final_output tr requirements_agent (UserPrompt p)),
     tr ++ [Call requirements_agent (UserPrompt p)]).
Proof. reflexivity. Qed.

Lemma generate_schemas_run reqs techs tr :
  generate_schemas json_loads final_output reqs techs tr =
    (schemas_of_response json_loads
       (final_output tr database_agent (DatabasePrompt reqs techs)),
     tr ++ [Call database_agent (DatabasePrompt reqs techs)]).
Proof. reflexivity. Qed.

(** What the [try] block of [analyze_requirements] does with the parsed
    value, by the kind of value. *)
Lemma requirements_of_response_loaded raw s v :
  unwrap_code_block (str_strip raw) = Ok s ->
  json_loads s = Loaded v ->
  requirements_of_response json_loads raw =
    except_decode
      (has_features ← py_in (T "Features") v;
       v1 ← (if has_features : bool then Ok v else py_setitem v (T "Features") (PList []));
       has_techstack ← py_in (T "Techstack") v1;
       v2 ← (if has_techstack : bool then Ok v1
             else py_setitem v1 (T "Techstack") empty_techstack);
       Ok v2)
      (fun msg => Ok (requirements_error msg raw)).
Proof.
  intros Hs Hv. unfold requirements_of_response.
  by rewrite Hs, outcome_bind_Ok, Hv.
Qed.

(** On an answer that is a JSON object, and on one that does not parse,
    [analyze_requirements] returns a dictionary with both keys. *)
Lemma requirements_of_response_object raw s d :
  unwrap_code_block (str_strip raw) = Ok s ->
  json_loads s = Loaded (PDict d) ->
  exists d',
    requirements_of_response json_loads raw = Ok (PDict d') /\
    d' !! T "Features" = Some (default (PList []) (d !! T "Features")) /\
    d' !! T "Techstack" = Some (default empty_techstack (d !! T "Techstack")).
Proof.
  intros Hs Hv. rewrite (requirements_of_response_loaded raw s (PDict d) Hs Hv).
  cbn [py_in mbind outcome_bind].
  destruct (d !! T "Features") as [f|] eqn:Ef.
  - rewrite bool_decide_eq_true_2 by done. cbn [py_in mbind outcome_bind].
    destruct (d !! T "Techstack") as [t|] eqn:Et.
    + rewrite bool_decide_eq_true_2 by done.
      exists d. by rewrite Ef, Et.
    + rewrite bool_decide_eq_false_2 by (by intros [? ?]).
      eexists. split; [done|]. split; [|by rewrite lookup_insert_eq].
      by rewrite lookup_insert_ne.
  - rewrite bool_decide_eq_false_2 by (by intros [? ?]).
    cbn [py_setitem py_in mbind outcome_bind].
    rewrite lookup_insert_ne by done.
    destruct (d !! T "Techstack") as [t|] eqn:Et.
    + rewrite bool_decide_eq_true_2 by done.
      eexists. split; [done|]. split; [by rewrite lookup_insert_eq|].
      by rewrite lookup_insert_ne.
    + rewrite bool_decide_eq_false_2 by (by intros [? ?]).
      eexists. split; [done|]. split; [|by rewrite lookup_insert_eq].
      rewrite lookup_insert_ne by done. by rewrite lookup_insert_eq.
Qed.

Lemma requirements_of_response_unparsed raw s msg :
  unwrap_code_block (str_strip raw) = Ok s ->
  json_loads s = DecodeError msg ->
  requirements_of_response json_loads raw = Ok (requirements_error msg raw) /\
  py_getitem (requirements_error msg raw) (T "Features") = Ok (PList []) /\
  py_getitem (requirements_error msg raw) (T "Techstack") = Ok empty_techstack /\
  py_getitem (requirements_error msg raw) (T "raw_output") = Ok (PStr raw).
Proof.
  intros Hs Hv. unfold requirements_of_response.
  rewrite Hs, outcome_bind_Ok, Hv. done.
Qed.

(** C9, at the failing input: when the model answers with the JSON array
    [[]] (and [json.loads] reads it as the empty list), the validation step
    ["Features" not in parsed_output] holds of the list and the assignment
    [parsed_output["Features"] = []] raises a [TypeError], which the handler
    for [JSONDecodeError] does not catch: [analyze_requirements] returns no
    dictionary. *)
Theorem analyze_requirements_array_raises p tr :
  final_output tr requirements_agent (UserPrompt p) = T "[]" ->
  json_loads (T "[]") = Loaded (PList []) ->
  analyze_requirements json_loads final_output p tr =
    (Raise TypeError, tr ++ [Call requirements_agent (UserPrompt p)]).
Proof.
  intros Hraw Hloads. rewrite analyze_requirements_run, Hraw. f_equal.
  by rewrite (requirements_of_response_loaded (T "[]") (T "[]") (PList []) eq_refl Hloads).
Qed.

(** What the [try] block of [generate_schemas] does with the parsed value. *)
Lemma schemas_of_response_loaded raw s v :
  unwrap_code_block (str_strip raw) = Ok s ->
  json_loads s = Loaded v ->
  schemas_of_response json_loads raw =
    except_decode
      (has_schemas ← py_in (T "schemas") v;
       Ok (if has_schemas : bool then v else py_dict [(T "schemas", v)]))
      (fun msg => Ok (schemas_error msg raw)).
Proof.
  intros Hs Hv. unfold schemas_of_response.
  by rewrite Hs, outcome_bind_Ok, Hv.
Qed.

(** On a JSON object the result has a "schemas" key: its own, or the one
    the object is wrapped under. *)
Lemma schemas_of_response_object raw s d :
  unwrap_code_block (str_strip raw) = Ok s ->
  json_loads s = Loaded (PDict d) ->
  exists d',
    schemas_of_response json_loads raw = Ok (PDict d') /\
    d' !! T "schemas" = Some (default (PDict d) (d !! T "schemas")).
Proof.
  intros Hs Hv. rewrite (schemas_of_response_loaded raw s (PDict d) Hs Hv).
  cbn [py_in mbind outcome_bind].
  destruct (d !! T "schemas") as [x|] eqn:E.
  - rewrite bool_decide_eq_true_2 by done. by exists d.
  - rewrite bool_decide_eq_false_2 by (by intros [? ?]).
    unfold py_dict. cbn [foldl fst snd].
    eexists. split; [done|]. by rewrite lookup_insert_eq.
Qed.

Lemma schemas_of_response_unparsed raw s msg :
  unwrap_code_block (str_strip raw) = Ok s ->
  json_loads s = DecodeError msg ->
  schemas_of_response json_loads raw = Ok (schemas_error msg raw) /\
  py_getitem (schemas_error msg raw) (T "schemas") = Ok (PDict ∅) /\
  py_getitem (schemas_error msg raw) (T "raw_output") = Ok (PStr raw).
Proof.
  intros Hs Hv. unfold schemas_of_response.
  rewrite Hs, outcome_bind_Ok, Hv. done.
Qed.

(** C10, at the failing input: when the model answers with the JSON number
    [42] (and [json.loads] reads it as the integer), the test
    ["schemas" not in parsed_output] raises a [TypeError], which the handler
    for [JSONDecodeError] does not catch: [generate_schemas] returns no
    dictionary. *)
Theorem generate_schemas_number_raises reqs techs tr :
  final_output tr database_agent (DatabasePrompt reqs techs) = T "42" ->
  json_loads (T "42") = Loaded (PInt 42) ->
  generate_schemas json_loads final_output reqs techs tr =
    (Raise TypeError, tr ++ [Call database_agent (DatabasePrompt reqs techs)]).
Proof.
  intros Hraw Hloads. rewrite generate_schemas_run, Hraw. f_equal.
  by rewrite (schemas_of_response_loaded (T "42") (T "42") (PInt 42) eq_refl Hloads).
Qed.

End OtherAgents.

(* ================================================================== *)
(** * The claims at concrete inputs                                    *)
(* ================================================================== *)

(** Extraction on the inputs the specification lists. *)
Example parse_empty : parse_json_response stub_loads [] = Raise (JSONDecodeError expecting_value).
Proof. reflexivity. Qed.

Example parse_garbage :
  parse_json_response stub_loads (T "oops") = Raise (JSONDecodeError expecting_value).
Proof. vm_compute. reflexivity. Qed.

Example parse_fenced :
  parse_json_response stub_loads
    (T "Here you go:" ++ [10%N] ++ T "```json" ++ [10%N] ++ T "{}" ++ [10%N] ++ T "```")
  = Ok (PDict ∅).
Proof. vm_compute. reflexivity. Qed.

Example parse_nested_fences :
  parse_json_response stub_loads (T "``` ```json [] ``` ```") = Ok (PList []).
Proof. vm_compute. reflexivity. Qed.

Example parse_reasoning_span :
  parse_json_response stub_loads (T "<think>a plan</think>  {}") = Ok (PDict ∅).
Proof. vm_compute. reflexivity. Qed.

Example parse_unterminated_span :
  parse_json_response stub_loads (T "<think>never closed {}")
  = Raise (JSONDecodeError expecting_value).
Proof. vm_compute. reflexivity. Qed.

Example remove_think_tags_unterminated :
  remove_think_tags (T "<think>never closed {}") = T "<think>never closed {}".
Proof. vm_compute. reflexivity. Qed.

Example re_sub_spans :
  re_sub think_re (T "a<think>x</think>b<think>y<think>z</think>c</think>d<think>e")
  = T "abc</think>d<think>e".
Proof. vm_compute. reflexivity. Qed.

Example str_strip_spaces : str_strip (T "  a b  ") = T "a b".
Proof. reflexivity. Qed.

Example str_split_commas :
  str_split (T ",") (T "a,b,,c,") = Ok [T "a"; T "b"; T ""; T "c"; T ""].
Proof. reflexivity. Qed.

Example str_split_words :
  str_split (T "ab") (T "xabyabab") = Ok [T "x"; T "y"; T ""; T ""].
Proof. reflexivity. Qed.

(** A whole run: the schema is [{}], every code answer is [{}], and the
    reviewer approves at once. *)
Example run_approved_first :
  exists files tr,
    generate_ai_service stub_loads
      (staged_model (T "{}") (T "{}") approve_text (T "# Service"))
      [T "user login"] [T "X"] 5 true []
    = (Ok (py_dict [(T "files", PDict files);
                    (T "schema", PDict ∅);
                    (T "iterations", PInt 1);
                    (T "approved", PBool true);
                    (T "project_name", PStr (T "ai_service"))]), tr) /\
    files !! doc_key = Some (PStr (T "# Service")) /\
    map call_agent tr
    = [file_schema_agent; coding_agent; code_reviewer_agent; documentation_agent].
Proof. eexists _, _. vm_compute. repeat split. Qed.

(** A whole run in which no code answer parses: three iterations, no
    review, and the documentation still in the result. *)
Example run_ceiling_reached :
  exists files tr,
    generate_ai_service stub_loads
      (staged_model (T "{}") (T "oops") (T "oops") (T "# Service"))
      [T "user login"] [T "X"] 3 false []
    = (Ok (py_dict [(T "files", PDict files);
                    (T "schema", PDict ∅);
                    (T "iterations", PInt 3);
                    (T "approved", PBool false);
                    (T "project_name", PStr (T "ai_service"))]), tr) /\
    files !! doc_key = Some (PStr (T "# Service")) /\
    map call_agent tr
    = [file_schema_agent; coding_agent; coding_agent; coding_agent; documentation_agent].
Proof. eexists _, _. vm_compute. repeat split. Qed.

(** ** Instances of the theorems with hypotheses *)

(** C1 at ceiling 3, with a model none of whose answers parses. *)
Lemma convergence_loop_terminates_witness :
  1 <= 3 /\
  exists st tr',
    coding_review_loop stub_loads garbage_model [T "user login"] [T "X"] 3 false (PDict ∅)
      initial_state [] = (Ok st, tr') /\
    iteration st = 3 /\
    approved st = PBool false /\
    current_code st = PDict ∅ /\
    Z.of_nat (calls_to coding_agent tr') = Z.of_nat (calls_to coding_agent []) + 3 /\
    calls_to code_reviewer_agent tr' = calls_to code_reviewer_agent [].
Proof.
  assert (H : 1 <= 3) by lia. split; [exact H|].
  destruct (convergence_loop_terminates stub_loads garbage_model
              [T "user login"] [T "X"] 3 false H) as (_ & _ & Hall).
  apply Hall. intros tr p. exists expecting_value. vm_compute. reflexivity.
Defined.

(** C2 on the first iteration, with a code answer that does not parse. *)
Lemma skip_review_on_code_error_witness :
  parse_json_response stub_loads (T "oops") = Raise (JSONDecodeError expecting_value) /\
  exists st' tr',
    loop_body stub_loads garbage_model [T "user login"] [T "X"] true (PDict ∅)
      initial_state [] = (Ok st', tr') /\
    map call_agent tr' = [coding_agent] /\
    current_code st' = PDict ∅ /\
    iteration st' = 1.
Proof.
  assert (H : parse_json_response stub_loads (T "oops") = Raise (JSONDecodeError expecting_value))
    by (vm_compute; reflexivity).
  split; [exact H|].
  destruct (skip_review_on_code_error stub_loads garbage_model [T "user login"] [T "X"]
              true (PDict ∅) initial_state [] expecting_value H)
    as (st' & tr' & Hbody & Htr & _ & Hcode & _ & _ & Hit).
  exists st', tr'. split; [exact Hbody|]. rewrite Htr, Hcode, Hit. repeat split.
Defined.




(** C7 with a schema answer that does not parse. *)
Lemma schema_failure_short_circuits_witness :
  exists details,
    generate_ai_service stub_loads garbage_model [T "user login"] [T "X"] 5 true []
    = (Ok (schema_failure details),
       [Call file_schema_agent (SchemaPrompt [T "user login"] [T "X"])]) /\
    py_getitem details (T "raw") = Ok (PStr (T "oops")).
Proof.
  destruct (schema_failure_short_circuits stub_loads garbage_model
              [T "user login"] [T "X"] 5 true [] expecting_value) as (Hrun & _).
  { vm_compute. reflexivity. }
  eexists. split; [exact Hrun|]. reflexivity.
Defined.

(** C8 on the state the loop starts from: not approved, empty bundle. *)
Lemma extraction_raises_on_loads_fault_witness :
  generate_code stub_loads_limit (constant_model long_integer) (PDict ∅)
    [T "user login"] [T "X"] (PDict ∅) (PStr []) []
  = (Raise ValueError,
     [Call coding_agent (CodePrompt (PDict ∅) [T "user login"] [T "X"] (PDict ∅) (PStr []))]).
Proof.
  destruct (extraction_raises_on_loads_fault stub_loads_limit long_integer long_integer
              DigitLimit) as (_ & _ & _ & _ & _ & Hrun).
  - vm_compute. reflexivity.
  - vm_compute. reflexivity.
  - exact (Hrun (constant_model long_integer) (PDict ∅) [T "user login"] [T "X"]
             (PDict ∅) (PStr []) [] eq_refl).
Defined.

Lemma documentation_injection_raises_on_non_mapping_witness :
  exists info,
    generate_ai_service stub_loads_files
      (staged_model (T "{}") files_list_text approve_text (T " # Docs "))
      [T "user login"] [T "X"] 3 false []
    = (Raise TypeError,
       [Call file_schema_agent (SchemaPrompt [T "user login"] [T "X"]);
        Call coding_agent
          (CodePrompt (PDict ∅) [T "user login"] [T "X"] (PDict ∅) (PStr []));
        Call code_reviewer_agent (ReviewPrompt (PDict ∅) [T "user login"] (PList []));
        Call documentation_agent (DocPrompt info (PDict ∅) (PList []) [T "user login"])]).
Proof.
  pose (model := staged_model (T "{}") files_list_text approve_text (T " # Docs ")).
  pose (st := LoopState (PList []) (PStr []) 1 (PBool true)).
  pose (tr := [Call file_schema_agent (SchemaPrompt [T "user login"] [T "X"]);
               Call coding_agent
                 (CodePrompt (PDict ∅) [T "user login"] [T "X"] (PDict ∅) (PStr []));
               Call code_reviewer_agent
                 (ReviewPrompt (PDict ∅) [T "user login"] (PList []))]).
  destruct (documentation_injection_raises_on_non_mapping stub_loads_files model
              [T "user login"] [T "X"] 3 false (PDict ∅) st [] tr) as [Hraise _].
  - vm_compute. reflexivity.
  - reflexivity.
  - reflexivity.
  - vm_compute. reflexivity.
  - destruct Hraise as [info Hinfo].
    + by exists ∅.
    + intros files. discriminate.
    + exists info. exact Hinfo.
Defined.

Example documentation_injected_into_empty_bundle :
  exists result tr',
    assemble_result (constant_model (T " # Service ")) [T "user login"] true (PDict ∅)
      initial_state [] = (Ok result, tr') /\
    map call_agent tr' = [documentation_agent] /\
    py_getitem result (T "files") = Ok (PDict {[ doc_key := PStr (T "# Service") ]}) /\
    py_getitem result (T "approved") = Ok (PBool false).
Proof.
  destruct (documentation_injected_into_mapping stub_loads (constant_model (T " # Service "))
              [T "user login"] [T "X"] 5 true ∅ ∅ initial_state [] eq_refl)
    as (result & documentation & info & Hrun & Hdoc & Hfiles & _ & _ & _ & _ & Happroved & _).
  exists result. eexists. split; [exact Hrun|]. split; [reflexivity|].
  split; [|exact Happroved].
  rewrite Hfiles, Hdoc. vm_compute. reflexivity.
Qed.

(** C9's failing input with the double for [json.loads]. *)
Lemma analyze_requirements_array_raises_witness :
  analyze_requirements stub_loads (constant_model (T "[]")) (T "a to-do list app") []
  = (Raise TypeError, [Call requirements_agent (UserPrompt (T "a to-do list app"))]).
Proof.
  exact (analyze_requirements_array_raises stub_loads (constant_model (T "[]"))
           (T "a to-do list app") [] eq_refl eq_refl).
Defined.

(** C10's failing input with the double for [json.loads]. *)
Lemma generate_schemas_number_raises_witness :
  generate_schemas stub_loads (constant_model (T "42")) [T "user login"] [T "PostgreSQL"] []
  = (Raise TypeError,
     [Call database_agent (DatabasePrompt [T "user login"] [T "PostgreSQL"])]).
Proof.
  exact (generate_schemas_number_raises stub_loads (constant_model (T "42"))
           [T "user login"] [T "PostgreSQL"] [] eq_refl eq_refl).
Defined.

(** C5 on a text with one span, and on a span never closed. *)
Lemma think_span_removal_witness :
  remove_think_tags (T "plan: <think>a</think>b</think> {}") = T "plan: b</think> {}" /\
  remove_think_tags (T "<think>never closed {}") = T "<think>never closed {}".
Proof.
  destruct think_span_removal as [Hspan Hnone]. split.
  - destruct (Hspan (T "plan: ") (T "a") (T "b</think> {}")) as [_ H];
      [vm_compute; reflexivity..|].
    etransitivity; [exact H|]. vm_compute. reflexivity.
  - destruct (Hnone (T "<think>never closed {}")) as [_ H].
    + intros pre mid post Heq.
      assert (Hin : str_in think_close (str_strip (T "<think>never closed {}")) = true).
      { apply str_in_true. exists (pre ++ think_open ++ mid), post.
        rewrite Heq. by rewrite <- !app_assoc. }
      vm_compute in Hin. discriminate Hin.
    + exact H.
Defined.

(* ================================================================== *)
(** * More about [strip] and [split]                                   *)
(* ================================================================== *)

Section MoreTextFacts.

Implicit Types (p s r x y w : text) (c : N).

Lemma str_lstrip_padding w s : all_space w -> str_lstrip (w ++ s) = str_lstrip s.
Proof. induction 1 as [|c w Hc _ IH]; simpl; [done|]. by rewrite Hc. Qed.

Lemma str_lstrip_all_space w : all_space w -> str_lstrip w = [].
Proof. intros H. rewrite <- (app_nil_r w). by rewrite str_lstrip_padding. Qed.

Lemma str_lstrip_app_cases s w :
  str_lstrip (s ++ w) = str_lstrip s ++ w \/
  (str_lstrip s = [] /\ str_lstrip (s ++ w) = str_lstrip w).
Proof.
  induction s as [|c s IH]; simpl; [by right|].
  destruct (is_space c); [done|by left].
Qed.

Lemma str_rstrip_padding s w : all_space w -> str_rstrip (s ++ w) = str_rstrip s.
Proof.
  intros H. unfold str_rstrip. rewrite rev_app_distr, str_lstrip_padding; [done|].
  by apply List.Forall_rev.
Qed.

Lemma str_rstrip_nil : str_rstrip [] = [].
Proof. reflexivity. Qed.

(** Whitespace around a text does not change what [strip] returns. *)
Lemma str_strip_padding w1 s w2 :
  all_space w1 -> all_space w2 -> str_strip (w1 ++ s ++ w2) = str_strip s.
Proof.
  intros H1 H2. unfold str_strip. rewrite str_lstrip_padding by done.
  destruct (str_lstrip_app_cases s w2) as [->|[Hs ->]].
  - by apply str_rstrip_padding.
  - by rewrite Hs, str_lstrip_all_space.
Qed.

Lemma str_lstrip_sublist s : str_lstrip s `sublist_of` s.
Proof.
  induction s as [|c s IH]; simpl; [done|].
  destruct (is_space c); [by apply sublist_cons|done].
Qed.

Lemma sublist_rev (l k : text) : l `sublist_of` k -> rev l `sublist_of` rev k.
Proof.
  induction 1 as [|c l k _ IH|c l k _ IH]; simpl; [done| |].
  - by apply sublist_app.
  - rewrite <- (app_nil_r (rev l)). apply sublist_app; [done|apply sublist_nil_l].
Qed.

Lemma str_strip_sublist s : str_strip s `sublist_of` s.
Proof.
  unfold str_strip, str_rstrip.
  transitivity (str_lstrip s); [|apply str_lstrip_sublist].
  rewrite <- (rev_involutive (str_lstrip s)) at 2.
  apply sublist_rev, str_lstrip_sublist.
Qed.

(** *** [find] *)

Lemma str_find_None_app p a r : p <> [] -> str_find p (a ++ p ++ r) <> None.
Proof. intros _ H. destruct (str_find_occurrence p a r) as [j Hj]. congruence. Qed.

Lemma str_in_false p s : str_in p s = false <-> str_find p s = None.
Proof. unfold str_in. by destruct (str_find p s). Qed.

(** An occurrence in [x] is an occurrence in [x ++ y], at the same place. *)
Lemma str_find_app_l p x y j : str_find p x = Some j -> str_find p (x ++ y) = Some j.
Proof.
  revert j. induction x as [|b x IH]; intros j; rewrite str_find_unfold.
  - destruct (str_startswith p []) eqn:E; [|done]. intros [= <-].
    destruct p; [|done]. by destruct y.
  - destruct (str_startswith p (b :: x)) eqn:E.
    + intros [= <-]. apply str_startswith_true in E as [r Hr].
      rewrite Hr, <- app_assoc, str_find_unfold. by rewrite str_startswith_app_same.
    + destruct (str_find p x) as [k|] eqn:F; [|done]. intros [= <-].
      destruct (str_find_Some _ _ _ F) as (a & r & Hx & _).
      change ((b :: x) ++ y) with (b :: x ++ y).
      rewrite str_find_unfold.
      change (b :: x ++ y) with ((b :: x) ++ y).
      rewrite str_startswith_longer, E
        by (rewrite Hx; simpl; rewrite !length_app; lia).
      simpl. by rewrite (IH k eq_refl).
Qed.

(** *** [split] *)

Lemma split_scan_skip sep k cur s :
  split_scan sep k cur s = split_scan sep 0 cur (drop k s).
Proof.
  revert k. induction s as [|b s IH]; intros k.
  - by rewrite drop_nil.
  - destruct k; [done|]. simpl. apply IH.
Qed.

Lemma split_scan_cons sep cur b s :
  split_scan sep 0 cur (b :: s) =
    if str_startswith sep (b :: s)
    then rev cur :: split_scan sep (length sep - 1) [] s
    else split_scan sep 0 (b :: cur) s.
Proof. reflexivity. Qed.

Lemma split_scan_at_sep c sep' rest cur :
  split_scan (c :: sep') 0 cur ((c :: sep') ++ rest)
  = rev cur :: split_scan (c :: sep') 0 [] rest.
Proof.
  pose proof (str_startswith_app_same (c :: sep') rest) as Hs.
  change ((c :: sep') ++ rest) with (c :: (sep' ++ rest)) in *.
  rewrite split_scan_cons, Hs. f_equal.
  rewrite split_scan_skip.
  replace (length (c :: sep') - 1)%nat with (length sep') by (simpl; lia).
  by rewrite drop_app_length.
Qed.

(** Up to the first separator: the first piece is the text before it. *)
Lemma split_scan_first sep a rest cur :
  sep <> [] ->
  str_find sep (a ++ sep) = Some (length a) ->
  split_scan sep 0 cur (a ++ sep ++ rest) = (rev cur ++ a) :: split_scan sep 0 [] rest.
Proof.
  intros Hsep. revert cur. induction a as [|b a IH]; intros cur Hfind.
  - rewrite app_nil_r. simpl app. destruct sep as [|c sep']; [done|].
    apply split_scan_at_sep.
  - change ((b :: a) ++ sep) with (b :: a ++ sep) in Hfind.
    rewrite str_find_unfold in Hfind.
    destruct (str_startswith sep (b :: a ++ sep)) eqn:E; [done|].
    destruct (str_find sep (a ++ sep)) as [k|] eqn:F; simpl in Hfind; [|done].
    injection Hfind as ->.
    change ((b :: a) ++ sep ++ rest) with (b :: a ++ sep ++ rest).
    rewrite split_scan_cons.
    replace (b :: a ++ sep ++ rest) with ((b :: a ++ sep) ++ rest)
      by (simpl; by rewrite <- app_assoc).
    rewrite str_startswith_longer, E by (simpl; rewrite length_app; lia).
    rewrite IH by done. simpl. by rewrite <- app_assoc.
Qed.

(** Without a separator the text is the only piece. *)
Lemma split_scan_none sep s cur :
  str_find sep s = None -> split_scan sep 0 cur s = [rev cur ++ s].
Proof.
  revert cur. induction s as [|b s IH]; intros cur; rewrite str_find_unfold.
  - simpl. by rewrite app_nil_r.
  - destruct (str_startswith sep (b :: s)) eqn:E; [done|].
    destruct (str_find sep s) eqn:F; [done|]. intros _.
    rewrite split_scan_cons, E, IH by done. simpl. by rewrite <- app_assoc.
Qed.

(** The first occurrence of [p] in [x ++ p] being at the end, [x] has none. *)
Lemma str_find_first_none p x :
  str_find p (x ++ p) = Some (length x) -> p <> [] -> str_find p x = None.
Proof.
  intros H Hp. destruct (str_find p x) as [j|] eqn:F; [|done].
  rewrite (str_find_app_l p x p j F) in H. injection H as ->.
  destruct (str_find_Some _ _ _ F) as (a & r & Hx & Ha).
  apply (f_equal length) in Hx. rewrite !length_app in Hx.
  destruct p; [done|]. simpl in Hx. lia.
Qed.

End MoreTextFacts.

(* ================================================================== *)
(** * What the extraction takes from an answer                         *)
(* ================================================================== *)

Section FenceFacts.

Lemma json_fence_has_fence s : str_in fence s = false -> str_in json_fence s = false.
Proof.
  intros H. destruct (str_in json_fence s) eqn:E; [|done].
  apply str_in_true in E as (a & r & ->).
  assert (str_in fence (a ++ json_fence ++ r) = true) as H'; [|congruence].
  apply str_in_true. exists a, (T "json" ++ r). reflexivity.
Qed.

Lemma py_index_second (a b : text) l : py_index (a :: b :: l) 1 = Ok b.
Proof. reflexivity. Qed.

Lemma py_index_first (a : text) l : py_index (a :: l) 0 = Ok a.
Proof. reflexivity. Qed.

(** The branch taken when the answer has a [```json] fence. *)
Lemma unwrap_code_block_json s :
  str_in json_fence s = true ->
  unwrap_code_block s =
    (parts ← str_split json_fence s;
     inner ← py_index parts 1;
     parts' ← str_split fence inner;
     body ← py_index parts' 0;
     Ok (str_strip body)).
Proof. intros H. unfold unwrap_code_block. fold json_fence fence. by rewrite H. Qed.

(** The branch taken when it has a fence, but no [```json] fence. *)
Lemma unwrap_code_block_plain s :
  str_in json_fence s = false ->
  str_in fence s = true ->
  unwrap_code_block s =
    (parts ← str_split fence s;
     inner ← py_index parts 1;
     parts' ← str_split fence inner;
     body ← py_index parts' 0;
     Ok (str_strip body)).
Proof. intros H1 H2. unfold unwrap_code_block. fold json_fence fence. by rewrite H1, H2. Qed.

(** The first piece of a split stands behind what the scan already holds. *)
Lemma split_scan_head sep cur s :
  exists z more, split_scan sep 0 cur s = (rev cur ++ z) :: more.
Proof.
  revert cur. induction s as [|b s IH]; intros cur.
  - exists [], []. simpl. by rewrite app_nil_r.
  - rewrite split_scan_cons. destruct (str_startswith sep (b :: s)).
    + exists [], (split_scan sep (length sep - 1) [] s). by rewrite app_nil_r.
    + destruct (IH (b :: cur)) as (z & more & ->). exists (b :: z), more.
      change (rev (b :: cur)) with (rev cur ++ [b]). by rewrite <- app_assoc.
Qed.

(** Before the first occurrence of [p] ends, no occurrence of [p] is
    complete. *)
Lemma str_find_prefix_none p x q q' :
  p = q ++ q' -> q' <> [] ->
  str_find p (x ++ p) = Some (length x) -> str_find p (x ++ q) = None.
Proof.
  intros -> Hq' Hfirst. destruct (str_find (q ++ q') (x ++ q)) as [j|] eqn:E; [|done].
  pose proof (str_find_app_l _ _ q' _ E) as E'.
  rewrite <- app_assoc, Hfirst in E'. injection E' as <-.
  destruct (str_find_Some _ _ _ E) as (a & r & Heq & Hlen).
  apply (f_equal length) in Heq. rewrite !length_app in Heq.
  destruct q'; [done|]. simpl in Heq. lia.
Qed.

Lemma fence_cons post : fence ++ post = 96%N :: 96%N :: 96%N :: post.
Proof. reflexivity. Qed.

(** Where a [```json] fence can start in a run of three backticks. *)
Lemma json_fence_at_run post :
  str_startswith json_fence (96%N :: 96%N :: 96%N :: post) = str_startswith (T "json") post /\
  str_startswith json_fence (96%N :: 96%N :: post) = str_startswith (T "`json") post /\
  str_startswith json_fence (96%N :: post) = str_startswith (T "``json") post.
Proof. repeat split. Qed.

(** The backticks of the closing run that stay in the block: the scan for
    [```json] runs before the scan for [```], so a closing run that is
    followed, one or two characters behind its start, by a [```json] fence
    is cut there. *)
Lemma split_json_piece body post cur :
  str_find fence (body ++ fence) = Some (length body) ->
  exists tail more,
    split_scan json_fence 0 cur (body ++ fence ++ post) = (rev cur ++ body ++ tail) :: more /\
    ((tail = [] /\ str_startswith (T "json") post = true) \/
     (tail = T "`" /\ str_startswith (T "`json") post = true) \/
     (tail = T "``" /\ str_startswith (T "``json") post = true) \/
     ((exists z, tail = fence ++ z) /\
      str_startswith (T "`json") post = false /\
      str_startswith (T "``json") post = false)).
Proof.
  revert cur. induction body as [|c body IH]; intros cur Hfirst.
  - clear Hfirst. rewrite app_nil_l, fence_cons.
    destruct (json_fence_at_run post) as (R3 & R2 & R1).
    rewrite split_scan_cons, R3.
    destruct (str_startswith (T "json") post) eqn:E0.
    { exists [], (split_scan json_fence (length json_fence - 1) [] (96%N :: 96%N :: post)).
      split; [by rewrite !app_nil_r|]. by left. }
    rewrite split_scan_cons, R2.
    destruct (str_startswith (T "`json") post) eqn:E1.
    { exists (T "`"), (split_scan json_fence (length json_fence - 1) [] (96%N :: post)).
      split; [reflexivity|]. right. by left. }
    rewrite split_scan_cons, R1.
    destruct (str_startswith (T "``json") post) eqn:E2.
    { exists (T "``"), (split_scan json_fence (length json_fence - 1) [] post).
      split; [|right; right; by left].
      rewrite app_nil_l. change (T "``") with ([96%N] ++ [96%N]).
      change (rev (96%N :: 96%N :: cur)) with ((rev cur ++ [96%N]) ++ [96%N]).
      by rewrite <- app_assoc. }
    destruct (split_scan_head json_fence (96%N :: 96%N :: 96%N :: cur) post)
      as (z & more & ->).
    exists (fence ++ z), more. split.
    + rewrite app_nil_l.
      change (rev (96%N :: 96%N :: 96%N :: cur))
        with (((rev cur ++ [96%N]) ++ [96%N]) ++ [96%N]).
      rewrite <- !app_assoc. reflexivity.
    + right. right. right. split; [by exists z|done].
  - rewrite str_find_unfold in Hfirst.
    destruct (str_startswith fence ((c :: body) ++ fence)) eqn:Ec; [done|].
    rewrite <- app_comm_cons in Hfirst.
    destruct (str_find fence (body ++ fence)) as [j|] eqn:Ej; [|done].
    injection Hfirst as ->.
    assert (Hnot : str_startswith json_fence (c :: body ++ fence ++ post) = false).
    { destruct (str_startswith json_fence (c :: body ++ fence ++ post)) eqn:E; [|done].
      apply str_startswith_true in E as [r Hr].
      assert (H0 : str_find fence ((c :: body) ++ fence ++ post) = Some 0%nat).
      { rewrite <- app_comm_cons, Hr, str_find_unfold.
        change (json_fence ++ r) with (fence ++ T "json" ++ r).
        by rewrite str_startswith_app_same. }
      assert (H1 : str_find fence ((c :: body) ++ fence ++ post)
                   = Some (length (c :: body))).
      { apply str_find_first_app. rewrite str_find_unfold, Ec, <- app_comm_cons.
        by rewrite Ej. }
      rewrite H0 in H1. done. }
    rewrite <- app_comm_cons, split_scan_cons, Hnot.
    destruct (IH (c :: cur) eq_refl) as (tail & more & -> & Hcases).
    exists tail, more. split; [|done].
    change (rev (c :: cur)) with (rev cur ++ [c]). by rewrite <- app_assoc.
Qed.

(** The branch taken on a [```json] fence, on a block that is closed. *)
Lemma unwrap_json_closed pre body post :
  str_find json_fence (pre ++ json_fence) = Some (length pre) ->
  str_find fence (body ++ fence) = Some (length body) ->
  unwrap_code_block (pre ++ json_fence ++ body ++ fence ++ post)
  = Ok (str_strip
          (body ++ (if str_startswith (T "`json") post then T "`"
                    else if str_startswith (T "``json") post then T "``"
                    else []))).
Proof.
  intros Hpre Hbody.
  rewrite unwrap_code_block_json by (apply str_in_true; eauto).
  rewrite str_split_ok, outcome_bind_Ok by done.
  rewrite (split_scan_first json_fence pre _ [] ltac:(done) Hpre).
  destruct (split_json_piece body post [] Hbody) as (tail & more & -> & Hcases).
  simpl rev. rewrite !app_nil_l, py_index_second, outcome_bind_Ok.
  rewrite str_split_ok, outcome_bind_Ok by done.
  assert (Hnone : forall q q', fence = q ++ q' -> q' <> [] ->
                    split_scan fence 0 [] (body ++ q) = [body ++ q]).
  { intros q q' Hq Hq'. rewrite (split_scan_none fence (body ++ q) []); [done|].
    by apply (str_find_prefix_none fence body q q'). }
  destruct Hcases as [[-> H0]|[[-> H1]|[[-> H2]|[[z ->] [H1 H2]]]]].
  - apply str_startswith_true in H0 as [r ->].
    rewrite (Hnone [] fence eq_refl ltac:(done)). by rewrite py_index_first.
  - rewrite H1, (Hnone (T "`") (T "``") eq_refl ltac:(done)). by rewrite py_index_first.
  - apply str_startswith_true in H2 as [r ->].
    rewrite (Hnone (T "``") (T "`") eq_refl ltac:(done)). by rewrite py_index_first.
  - rewrite H1, H2, app_nil_r.
    rewrite (split_scan_first fence body z [] ltac:(done) Hbody).
    by rewrite py_index_first.
Qed.

(** X1: The content of a [```json] block, in an answer whose first [```json]
    fence stands after [pre]. When a [```] follows, the text taken is what
    stands between the opening fence and the first [```] behind it,
    stripped, whatever follows (further fences of either kind included);
    the one exception is a closing run of backticks that is directly
    followed by [`json] or [``json], that is, a [```json] fence starting
    one or two characters into the run: then that one backtick, or those
    two, stay at the end of the text taken. When no [```] follows, it is
    all the text behind the opening fence, stripped. Text before the
    opening fence and behind the closing one is dropped. *)
Theorem unwrap_json_fenced_block pre :
  str_find json_fence (pre ++ json_fence) = Some (length pre) ->
  (forall body post,
      str_find fence (body ++ fence) = Some (length body) ->
      str_startswith (T "`json") post = false ->
      str_startswith (T "``json") post = false ->
      unwrap_code_block (pre ++ json_fence ++ body ++ fence ++ post) = Ok (str_strip body)) /\
  (forall body post,
      str_find fence (body ++ fence) = Some (length body) ->
      unwrap_code_block (pre ++ json_fence ++ body ++ fence ++ T "`json" ++ post)
      = Ok (str_strip (body ++ T "`"))) /\
  (forall body post,
      str_find fence (body ++ fence) = Some (length body) ->
      unwrap_code_block (pre ++ json_fence ++ body ++ fence ++ T "``json" ++ post)
      = Ok (str_strip (body ++ T "``"))) /\
  (forall rest,
      str_in fence rest = false ->
      unwrap_code_block (pre ++ json_fence ++ rest) = Ok (str_strip rest)).
Proof.
  intros Hpre. split; [|split; [|split]].
  - intros body post Hbody H1 H2.
    by rewrite (unwrap_json_closed pre body post Hpre Hbody), H1, H2, app_nil_r.
  - intros body post Hbody.
    by rewrite (unwrap_json_closed pre body (T "`json" ++ post) Hpre Hbody).
  - intros body post Hbody.
    by rewrite (unwrap_json_closed pre body (T "``json" ++ post) Hpre Hbody).
  - intros rest Hrest.
    rewrite unwrap_code_block_json by (apply str_in_true; eauto).
    rewrite str_split_ok, outcome_bind_Ok by done.
    rewrite (split_scan_first json_fence pre _ [] ltac:(done) Hpre).
    rewrite (split_scan_none json_fence _ [])
      by (by apply str_in_false, json_fence_has_fence).
    simpl rev. rewrite !app_nil_l, py_index_second, outcome_bind_Ok.
    rewrite str_split_ok, outcome_bind_Ok by done.
    rewrite (split_scan_none fence rest []) by (by apply str_in_false).
    by rewrite py_index_first.
Qed.

(** X2: The content of a block without the [json] tag: in an answer with no
    [```json] fence whose first [```] stands after [pre], the text taken is
    what stands between that fence and the next one, stripped (a language
    tag behind the opening fence is part of it); when no second fence
    follows, it is all the text behind the first, stripped. *)
Theorem unwrap_plain_fenced_block pre :
  str_find fence (pre ++ fence) = Some (length pre) ->
  (forall body post,
      str_find fence (body ++ fence) = Some (length body) ->
      str_in json_fence (pre ++ fence ++ body ++ fence ++ post) = false ->
      unwrap_code_block (pre ++ fence ++ body ++ fence ++ post) = Ok (str_strip body)) /\
  (forall rest,
      str_in fence rest = false ->
      str_in json_fence (pre ++ fence ++ rest) = false ->
      unwrap_code_block (pre ++ fence ++ rest) = Ok (str_strip rest)).
Proof.
  intros Hpre. split.
  - intros body post Hbody Hnojson.
    rewrite unwrap_code_block_plain by (done || apply str_in_true; eauto).
    rewrite str_split_ok, outcome_bind_Ok by done.
    rewrite (split_scan_first fence pre _ [] ltac:(done) Hpre).
    rewrite (split_scan_first fence body post [] ltac:(done) Hbody).
    simpl rev. rewrite !app_nil_l, py_index_second, outcome_bind_Ok.
    rewrite str_split_ok, outcome_bind_Ok by done.
    rewrite (split_scan_none fence body [])
      by (by apply str_find_first_none).
    by rewrite py_index_first.
  - intros rest Hrest Hnojson.
    rewrite unwrap_code_block_plain by (done || apply str_in_true; eauto).
    rewrite str_split_ok, outcome_bind_Ok by done.
    rewrite (split_scan_first fence pre _ [] ltac:(done) Hpre).
    rewrite (split_scan_none fence rest []) by (by apply str_in_false).
    simpl rev. rewrite !app_nil_l, py_index_second, outcome_bind_Ok.
    rewrite str_split_ok, outcome_bind_Ok by done.
    rewrite (split_scan_none fence rest []) by (by apply str_in_false).
    by rewrite py_index_first.
Qed.

(** An answer without a fence is left as it is. *)
Lemma unwrap_code_block_no_fence s : str_in fence s = false -> unwrap_code_block s = Ok s.
Proof.
  intros H. unfold unwrap_code_block. fold json_fence fence.
  by rewrite (json_fence_has_fence s H), H.
Qed.

Context (json_loads : text -> loads_result).

(** X3: Whitespace around an answer never changes what [parse_json_response]
    makes of it; and an answer that, stripped, has neither an opening
    reasoning marker nor a fence goes to [json.loads] stripped and otherwise
    untouched. *)
Theorem parse_json_response_trims w1 raw w2 :
  all_space w1 -> all_space w2 ->
  parse_json_response json_loads (w1 ++ raw ++ w2) = parse_json_response json_loads raw /\
  (str_in think_open (str_strip raw) = false ->
   str_in fence (str_strip raw) = false ->
   parse_json_response json_loads (w1 ++ raw ++ w2) = of_loads (json_loads (str_strip raw))).
Proof.
  intros H1 H2.
  assert (Hpad : parse_json_response json_loads (w1 ++ raw ++ w2)
                 = parse_json_response json_loads raw)
    by (unfold parse_json_response; by rewrite str_strip_padding).
  split; [done|]. intros Hthink Hfence. rewrite Hpad.
  unfold parse_json_response, remove_think_tags. rewrite Hthink.
  by rewrite unwrap_code_block_no_fence.
Qed.

End FenceFacts.

(* ================================================================== *)
(** * More about the stages and the loop body                          *)
(* ================================================================== *)

Section MoreStageFacts.

Context (json_loads : text -> loads_result).
Context (final_output : trace -> Agent -> prompt -> text).
Context (features ai_techstack : list text) (max_iterations : Z) (verbose : bool).
Context (file_schema : pyval).

Local Abbreviation parse := (parse_json_response json_loads).
Local Abbreviation body :=
  (loop_body json_loads final_output features ai_techstack verbose file_schema).
Local Abbreviation loop :=
  (coding_review_loop json_loads final_output features ai_techstack max_iterations
     verbose file_schema).
Local Abbreviation guard := (loop_guard max_iterations).
Local Abbreviation code_prompt st :=
  (CodePrompt file_schema features ai_techstack (current_code st) (review_feedback st)).

Lemma except_decode_Ok {A : Type} (a : A) (h : text -> outcome A) :
  except_decode (Ok a) h = Ok a.
Proof. reflexivity. Qed.

Lemma re_sub_scan_sublist (pattern : regex) k s : re_sub_scan pattern k s `sublist_of` s.
Proof.
  revert k. induction s as [|b s IH]; intros k; simpl; [done|].
  destruct k; [|by apply sublist_cons].
  destruct (re_match pattern (b :: s)) as [[|n]|];
    [by apply sublist_skip|by apply sublist_cons|by apply sublist_skip].
Qed.

Lemma remove_think_tags_sublist s : remove_think_tags s `sublist_of` s.
Proof.
  unfold remove_think_tags. destruct (str_in think_open s); [|done].
  transitivity (re_sub think_re s); [apply str_strip_sublist|apply re_sub_scan_sublist].
Qed.

Lemma remove_think_tags_stripped s :
  str_strip (remove_think_tags (str_strip s)) = remove_think_tags (str_strip s).
Proof.
  unfold remove_think_tags. destruct (str_in think_open (str_strip s));
    apply str_strip_idem.
Qed.

(** X5: The documentation stage never raises and asks its agent once; the text
    it returns has no whitespace at either end and is made of characters of
    the answer in their order (nothing is added); fenced blocks are not
    unwrapped: an answer without an opening reasoning marker is returned
    stripped and otherwise whole. *)
Theorem generate_documentation_returns_trimmed_answer info fs code tr :
  let p := DocPrompt info fs code features in
  let raw := final_output tr documentation_agent p in
  exists doc,
    generate_documentation final_output info fs code features tr
    = (Ok doc, tr ++ [Call documentation_agent p]) /\
    str_strip doc = doc /\
    doc `sublist_of` raw /\
    (str_in think_open (str_strip raw) = false -> doc = str_strip raw).
Proof.
  intros p raw. eexists. split; [apply generate_documentation_run|].
  fold p raw. split; [apply remove_think_tags_stripped|]. split.
  - transitivity (str_strip raw); [apply remove_think_tags_sublist|apply str_strip_sublist].
  - intros H. unfold remove_think_tags. by rewrite H.
Qed.

(** [code_failed] on an object: both the "error" key and the status
    "error" are needed. *)
Lemma code_failed_object d :
  exists b,
    code_failed (PDict d) = Ok b /\
    (b = true <-> is_Some (d !! T "error") /\ d !! T "status" = Some (PStr (T "error"))).
Proof.
  unfold code_failed. cbn [py_in mbind outcome_bind].
  destruct (d !! T "error") as [x|] eqn:E.
  - rewrite bool_decide_eq_true_2 by done. cbn [py_get mbind outcome_bind].
    destruct (d !! T "status") as [[| | | |s| |]|] eqn:Es; simpl;
      try (eexists; split; [done|]; split; [done|by intros [_ [=]]]).
    destruct (decide (s = T "error")) as [->|Hne].
    + exists true. rewrite bool_decide_eq_true_2 by done. by repeat split.
    + exists false. rewrite bool_decide_eq_false_2 by done.
      split; [done|]. split; [done|]. intros [_ [= ->]]. done.
  - rewrite bool_decide_eq_false_2 by (by intros [? ?]).
    exists false. split; [done|]. split; [done|]. by intros [[? ?] _].
Qed.

(** X6: An answer of the coding agent that parses to an object with an "error"
    key and the status "error" is dropped like one that does not parse: no
    review, bundle and feedback unchanged; an object with only one of the
    two is taken as code. *)
Theorem reported_code_error_skips_review st tr d :
  parse (final_output tr coding_agent (code_prompt st)) = Ok (PDict d) ->
  (is_Some (d !! T "error") /\ d !! T "status" = Some (PStr (T "error")) ->
   body st tr =
     (Ok (LoopState (current_code st) (review_feedback st) (iteration st + 1) (approved st)),
      tr ++ [Call coding_agent (code_prompt st)])) /\
  (~ (is_Some (d !! T "error") /\ d !! T "status" = Some (PStr (T "error"))) ->
   code_failed (PDict d) = Ok false).
Proof.
  intros Hparse. destruct (code_failed_object d) as (b & Hb & Hiff). split.
  - intros H. apply Hiff in H as ->.
    unfold loop_body. rewrite M_bind_run, generate_code_run.
    unfold code_of_response. rewrite Hparse, except_decode_Ok.
    rewrite M_bind_run. unfold lift at 1. by rewrite Hb.
  - intros H. destruct b; [|done]. destruct H. by apply Hiff.
Qed.

(** [code_failed], then [.get("files", {})], on a value that is no object. *)
Lemma code_result_not_object v :
  (forall d, v <> PDict d) ->
  (exists e, code_failed v = Raise e /\ (e = TypeError \/ e = AttributeError)) \/
  (code_failed v = Ok false /\ py_get v (T "files") (PDict ∅) = Raise AttributeError).
Proof.
  intros Hv. destruct v as [| | | |s|l|d]; try (left; eexists; split; [done|]; by left).
  - unfold code_failed. cbn [py_in mbind outcome_bind].
    destruct (str_in (T "error") s); [left|right]; eauto.
  - unfold code_failed. cbn [py_in mbind outcome_bind].
    destruct (existsb _ l); [left|right]; eauto.
  - by destruct (Hv d).
Qed.

(** X7: A code answer that is valid JSON but no object is not absorbed by the
    loop: the body raises a [TypeError] or an [AttributeError] right after
    the call to the coding agent, and so does the loop. *)
Theorem non_object_code_answer_raises st tr v :
  parse_json_response json_loads (final_output tr coding_agent (code_prompt st)) = Ok v ->
  (forall d, v <> PDict d) ->
  exists e,
    (e = TypeError \/ e = AttributeError) /\
    loop_body json_loads final_output features ai_techstack verbose file_schema st tr
    = (Raise e, tr ++ [Call coding_agent (code_prompt st)]) /\
    (loop_guard max_iterations st = true ->
     coding_review_loop json_loads final_output features ai_techstack max_iterations
       verbose file_schema st tr
     = (Raise e, tr ++ [Call coding_agent (code_prompt st)])).
Proof.
  intros Hparse Hv.
  assert (Hbody : exists e, (e = TypeError \/ e = AttributeError) /\
            body st tr = (Raise e, tr ++ [Call coding_agent (code_prompt st)])).
  { unfold loop_body. rewrite M_bind_run, generate_code_run.
    unfold code_of_response. rewrite Hparse, except_decode_Ok.
    rewrite M_bind_run. unfold lift at 1.
    destruct (code_result_not_object v Hv) as [(e & -> & He)|[-> Hget]].
    - by exists e.
    - rewrite M_bind_run. unfold lift at 1. rewrite Hget. exists AttributeError. eauto. }
  destruct Hbody as (e & He & Hbody). exists e. split; [done|]. split; [done|].
  intros G. by rewrite coding_review_loop_unfold, G, M_bind_run, Hbody.
Qed.

(** X8: A review answer that is valid JSON but no object makes the body raise
    an [AttributeError] at [review_result.get]. *)
Theorem non_object_review_answer_raises st tr code_result code' v :
  let tr1 := tr ++ [Call coding_agent (code_prompt st)] in
  let tr2 := tr1 ++ [Call code_reviewer_agent (ReviewPrompt file_schema features code')] in
  code_of_response json_loads (final_output tr coding_agent (code_prompt st)) = Ok code_result ->
  code_failed code_result = Ok false ->
  py_get code_result (T "files") (PDict ∅) = Ok code' ->
  py_when verbose (_ ← py_len code'; Ok tt) = Ok tt ->
  parse (final_output tr1 code_reviewer_agent (ReviewPrompt file_schema features code'))
    = Ok v ->
  (forall d, v <> PDict d) ->
  body st tr = (Raise AttributeError, tr2).
Proof.
  intros tr1 tr2 Hcode Hfailed Hfiles Hlen Hparse Hv.
  unfold loop_body.
  rewrite M_bind_run, generate_code_run, Hcode.
  rewrite M_bind_run. unfold lift at 1. rewrite Hfailed.
  rewrite M_bind_run. unfold lift at 1. rewrite Hfiles.
  rewrite M_bind_run. unfold lift at 1. rewrite Hlen.
  rewrite M_bind_run, review_code_run. fold tr1.
  unfold review_of_response. rewrite Hparse, except_decode_Ok.
  rewrite M_bind_run. unfold lift at 1.
  destruct v as [| | | | | |d]; try done. by destruct (Hv d).
Qed.

(** The calls one pass of the body appends: the one to the coding agent,
    or that one and one to the reviewer. *)
Lemma loop_body_trace st tr o tr' :
  body st tr = (o, tr') ->
  (tr' = tr ++ [Call coding_agent (code_prompt st)] /\
   (forall st', o = Ok st' -> approved st' = approved st)) \/
  (exists code',
      tr' = tr ++ [Call coding_agent (code_prompt st);
                   Call code_reviewer_agent (ReviewPrompt file_schema features code')]).
Proof.
  unfold loop_body. rewrite M_bind_run, generate_code_run.
  destruct (code_of_response _ _) as [code_result|e];
    [|intros [= <- <-]; left; by split].
  rewrite M_bind_run. unfold lift at 1.
  destruct (code_failed code_result) as [[|]|e];
    [intros [= <- <-]; left; split; [done|by intros ? [= <-]]
    | | intros [= <- <-]; left; by split].
  rewrite M_bind_run. unfold lift at 1.
  destruct (py_get code_result _ _) as [code'|e];
    [|intros [= <- <-]; left; by split].
  rewrite M_bind_run. unfold lift at 1.
  destruct (py_when verbose _) as [[]|e];
    [|intros [= <- <-]; left; by split].
  rewrite M_bind_run, review_code_run.
  assert (Htr : forall o' : outcome loop_state,
             (o', (tr ++ [Call coding_agent (code_prompt st)]) ++
                  [Call code_reviewer_agent (ReviewPrompt file_schema features code')])
             = (o, tr') ->
             exists code'0,
               tr' = tr ++ [Call coding_agent (code_prompt st);
                            Call code_reviewer_agent
                              (ReviewPrompt file_schema features code'0)]).
  { intros o' [= <- <-]. exists code'. by rewrite <- app_assoc. }
  destruct (review_of_response _ _) as [review_result|e]; [|intros H; right; eauto].
  rewrite M_bind_run. unfold lift at 1.
  destruct (py_get review_result _ _) as [approved'|e]; [|intros H; right; eauto].
  rewrite M_bind_run. unfold lift at 1.
  destruct (py_get review_result _ _) as [feedback'|e]; [|intros H; right; eauto].
  rewrite M_bind_run. unfold lift at 1.
  destruct (py_when verbose _) as [[]|e]; intros H; right; eauto.
Qed.

Lemma calls_to_app a tr1 tr2 : calls_to a (tr1 ++ tr2) = (calls_to a tr1 + calls_to a tr2)%nat.
Proof. unfold calls_to. by rewrite List.filter_app, length_app. Qed.

(** The body never asks the schema agent, and a body that changes
    [approved] has asked the reviewer. *)
Lemma loop_body_other_calls st tr o tr' :
  body st tr = (o, tr') ->
  calls_to file_schema_agent tr' = calls_to file_schema_agent tr /\
  calls_to requirements_agent tr' = calls_to requirements_agent tr /\
  calls_to database_agent tr' = calls_to database_agent tr /\
  (calls_to code_reviewer_agent tr <= calls_to code_reviewer_agent tr')%nat /\
  (forall st', o = Ok st' ->
     approved st' = approved st \/
     calls_to code_reviewer_agent tr' = S (calls_to code_reviewer_agent tr)).
Proof.
  intros B. destruct (loop_body_trace _ _ _ _ B) as [[-> Hap]|[code' ->]];
    rewrite !calls_to_app; unfold calls_to; simpl; (split; [lia|split; [lia|split; [lia|split; [lia|]]]]).
  - intros st' ->. left. by apply Hap.
  - intros st' _. right. lia.
Qed.

End MoreStageFacts.

(* ================================================================== *)
(** * More about the loop and the driver                               *)
(* ================================================================== *)

Section MoreLoopFacts.

Context (json_loads : text -> loads_result).
Context (final_output : trace -> Agent -> prompt -> text).
Context (features ai_techstack : list text) (max_iterations : Z) (verbose : bool).
Context (file_schema : pyval).

Local Abbreviation body :=
  (loop_body json_loads final_output features ai_techstack verbose file_schema).
Local Abbreviation loop :=
  (coding_review_loop json_loads final_output features ai_techstack max_iterations
     verbose file_schema).
Local Abbreviation run_from :=
  (loop_from json_loads final_output features ai_techstack max_iterations
     verbose file_schema).
Local Abbreviation guard := (loop_guard max_iterations).

(** What every run of the loop keeps, however it ends. *)
Lemma loop_from_accounting dist st tr o tr' :
  run_from dist st tr = (o, tr') ->
  calls_to file_schema_agent tr' = calls_to file_schema_agent tr /\
  calls_to requirements_agent tr' = calls_to requirements_agent tr /\
  calls_to database_agent tr' = calls_to database_agent tr /\
  (calls_to code_reviewer_agent tr <= calls_to code_reviewer_agent tr')%nat /\
  (calls_to code_reviewer_agent tr' + calls_to coding_agent tr
   <= calls_to coding_agent tr' + calls_to code_reviewer_agent tr)%nat /\
  (forall st', o = Ok st' ->
     Z.of_nat (calls_to coding_agent tr') - iteration st'
     = Z.of_nat (calls_to coding_agent tr) - iteration st /\
     (approved st' = approved st \/
      (calls_to code_reviewer_agent tr < calls_to code_reviewer_agent tr')%nat)).
Proof.
  revert st tr. induction dist as [|dist IH]; intros st tr; simpl.
  - intros [= <- <-]. split; [done|]. split; [done|]. split; [done|]. split; [lia|]. split; [lia|].
    intros st' [= <-]. split; [lia|by left].
  - destruct (guard st).
    2:{ intros [= <- <-]. split; [done|]. split; [done|]. split; [done|]. split; [lia|]. split; [lia|].
    intros st' [= <-]. split; [lia|by left]. }
    rewrite M_bind_run. destruct (body st tr) as [[st1|e] tr1] eqn:B.
    + destruct (loop_body_effect _ _ _ _ _ _ _ _ _ _ B) as (Hc & Hr & _ & Hit).
      destruct (loop_body_other_calls _ _ _ _ _ _ _ _ _ _ B) as (Hs & Hq & Hd & Hmono & Hap).
      specialize (Hit st1 eq_refl). specialize (Hap st1 eq_refl).
      intros Hrun. destruct (IH st1 tr1 Hrun) as (Is & Iq & Id & Im & Ir & Iok).
      split; [congruence|]. split; [congruence|]. split; [congruence|]. split; [lia|].
      split; [lia|]. intros st' ->. destruct (Iok st' eq_refl) as [Ic Ia]. split; [lia|].
      destruct Ia as [Ia|Ia]; [|right; lia].
      destruct Hap as [Hap|Hap]; [left; congruence|right; lia].
    + destruct (loop_body_effect _ _ _ _ _ _ _ _ _ _ B) as (Hc & Hr & _ & _).
      destruct (loop_body_other_calls _ _ _ _ _ _ _ _ _ _ B) as (Hs & Hq & Hd & Hmono & _).
      intros [= <- <-]. split; [done|]. split; [done|]. split; [done|]. split; [lia|]. split; [lia|].
      by intros st' [=].
Qed.

(** The loop returns only with its test false. *)
Lemma loop_from_exit dist st tr st' tr' :
  dist = Z.to_nat (max_iterations - iteration st) ->
  run_from dist st tr = (Ok st', tr') ->
  guard st' = false.
Proof.
  revert st tr. induction dist as [|dist IH]; intros st tr Hd; simpl.
  - intros [= <- <-]. unfold loop_guard.
    replace (iteration st <? max_iterations) with false by lia. apply andb_false_r.
  - destruct (guard st) eqn:G; [|by intros [= <- <-]].
    rewrite M_bind_run. destruct (body st tr) as [[st1|e] tr1] eqn:B; [|done].
    destruct (loop_body_effect _ _ _ _ _ _ _ _ _ _ B) as (_ & _ & _ & Hit).
    specialize (Hit st1 eq_refl). apply IH. lia.
Qed.

(** X10: On return from the loop started in its initial state with a ceiling
    [N >= 0]: the counter is between 0 and [N] and equals the number of
    code generations made; either [approved] is true or the counter is [N];
    and an [approved] that is true comes from a review made in this loop. *)
Theorem loop_postcondition tr st tr' :
  0 <= max_iterations ->
  loop initial_state tr = (Ok st, tr') ->
  0 <= iteration st <= max_iterations /\
  Z.of_nat (calls_to coding_agent tr') = Z.of_nat (calls_to coding_agent tr) + iteration st /\
  (truthy (approved st) = true \/ iteration st = max_iterations) /\
  (truthy (approved st) = true ->
   1 <= iteration st /\
   (calls_to code_reviewer_agent tr < calls_to code_reviewer_agent tr')%nat).
Proof.
  intros HN Hrun. unfold coding_review_loop in Hrun.
  pose proof (loop_from_exit _ _ _ _ _ eq_refl Hrun) as Hexit.
  destruct (loop_from_accounting _ _ _ _ _ Hrun) as (_ & _ & _ & Hm & Hr & Hok).
  destruct (Hok st eq_refl) as [Hc Ha]. simpl in Hc, Ha.
  pose proof (loop_from_calls json_loads final_output features ai_techstack max_iterations
                verbose file_schema (Z.to_nat (max_iterations - iteration initial_state))
                initial_state tr) as [Hle _].
  rewrite Hrun in Hle. simpl in Hle.
  assert (0 <= iteration st <= max_iterations) as Hrange by lia.
  split; [done|]. split; [lia|]. split.
  - unfold loop_guard in Hexit. apply andb_false_iff in Hexit as [Hexit|Hexit].
    + left. by destruct (truthy (approved st)).
    + right. lia.
  - intros Htrue. destruct Ha as [Ha|Ha]; [by rewrite Ha in Htrue|]. split; lia.
Qed.


End MoreLoopFacts.

Section MoreDriverFacts.

Context (json_loads : text -> loads_result).
Context (final_output : trace -> Agent -> prompt -> text).
Context (features ai_techstack : list text) (max_iterations : Z).

Local Abbreviation service :=
  (generate_ai_service json_loads final_output features ai_techstack max_iterations).
Local Abbreviation loop :=
  (coding_review_loop json_loads final_output features ai_techstack max_iterations).
Local Abbreviation body :=
  (loop_body json_loads final_output features ai_techstack).
Local Abbreviation assemble := (assemble_result final_output features).
Local Abbreviation schema_call :=
  (Call file_schema_agent (SchemaPrompt features ai_techstack)).


(** X12: Storing the documentation needs a mapping: when the code bundle the
    loop ended with is a list, a string or another value that is no object
    (the model's "files" entry is taken unchecked), the documentation is
    asked for and then the assignment raises a [TypeError]; and a schema
    that is no object raises an [AttributeError] before the documentation
    is asked for. *)
Theorem documentation_injection_needs_mapping verbose st tr :
  (forall fs, (forall files, current_code st <> PDict files) ->
     exists info,
       assemble_result final_output features verbose (PDict fs) st tr =
         (Raise TypeError,
          tr ++ [Call documentation_agent
                   (DocPrompt info (PDict fs) (current_code st) features)])) /\
  (forall schema, (forall fs, schema <> PDict fs) ->
     assemble_result final_output features verbose schema st tr
     = (Raise AttributeError, tr)).
Proof.
  split.
  - intros fs Hcode. eexists. unfold assemble_result.
    rewrite M_bind_run. unfold lift at 1. simpl py_get. cbv beta iota.
    rewrite M_bind_run. unfold lift at 1. simpl py_get. cbv beta iota.
    rewrite M_bind_run, generate_documentation_run.
    rewrite M_bind_run. unfold lift at 1.
    destruct (current_code st) as [| | | | | |files]; try done. by destruct (Hcode files).
  - intros schema Hschema. unfold assemble_result.
    rewrite M_bind_run. unfold lift at 1.
    destruct schema as [| | | | | |fs]; try done. by destruct (Hschema fs).
Qed.

(** What assembling the result appends to the trace. *)
Lemma assemble_result_trace verbose fs st tr o tr' :
  assemble verbose fs st tr = (o, tr') ->
  tr' = tr \/ exists p, tr' = tr ++ [Call documentation_agent p].
Proof.
  unfold assemble_result.
  rewrite M_bind_run. unfold lift at 1.
  destruct (py_get fs _ _) as [name|e]; [|intros [= <- <-]; by left].
  rewrite M_bind_run. unfold lift at 1.
  destruct (py_get fs _ _) as [description|e]; [|intros [= <- <-]; by left].
  rewrite M_bind_run, generate_documentation_run.
  rewrite M_bind_run. unfold lift at 1.
  destruct (py_setitem _ _ _) as [code'|e]; [|intros [= <- <-]; right; by eexists].
  rewrite M_bind_run. unfold lift at 1.
  destruct (py_when verbose _) as [[]|e]; intros [= <- <-]; right; by eexists.
Qed.

Lemma driver_calls verbose tr o tr' :
  service verbose tr = (o, tr') ->
  calls_to file_schema_agent tr' = S (calls_to file_schema_agent tr) /\
  (calls_to documentation_agent tr' <= S (calls_to documentation_agent tr))%nat /\
  (calls_to code_reviewer_agent tr' - calls_to code_reviewer_agent tr
   <= calls_to coding_agent tr' - calls_to coding_agent tr)%nat /\
  (calls_to coding_agent tr' - calls_to coding_agent tr <= Z.to_nat max_iterations)%nat /\
  calls_to requirements_agent tr' = calls_to requirements_agent tr /\
  calls_to database_agent tr' = calls_to database_agent tr.
Proof.
  unfold generate_ai_service.
  rewrite M_bind_run, generate_file_schema_run.
  set (tr1 := tr ++ [schema_call]).
  assert (Hs : forall a, calls_to a tr1
                 = (calls_to a tr + if is_agent a file_schema_agent then 1 else 0)%nat)
    by (intros a; unfold tr1; by rewrite calls_to_snoc).
  pose proof (Hs file_schema_agent) as H1. pose proof (Hs documentation_agent) as H2.
  pose proof (Hs code_reviewer_agent) as H3. pose proof (Hs coding_agent) as H4.
  pose proof (Hs requirements_agent) as H5. pose proof (Hs database_agent) as H6.
  simpl in H1, H2, H3, H4, H5, H6.
  destruct (schema_of_response _ _) as [fs|e]; [|intros [= <- <-]; lia].
  rewrite M_bind_run. unfold lift at 1.
  destruct (py_in _ fs) as [[|]|e]; [| |intros [= <- <-]; lia].
  { rewrite M_bind_run. unfold lift at 1.
    destruct (py_when verbose _) as [[]|e]; intros [= <- <-]; lia. }
  rewrite M_bind_run. unfold lift at 1.
  destruct (py_when verbose _) as [[]|e]; [|intros [= <- <-]; lia].
  rewrite M_bind_run.
  destruct (loop verbose fs initial_state tr1) as [o2 tr2] eqn:Hloop.
  unfold coding_review_loop in Hloop.
  destruct (loop_from_accounting _ _ _ _ _ _ _ _ _ _ _ _ Hloop)
    as (L1 & L2 & L3 & L4 & L5 & _).
  pose proof (loop_from_calls json_loads final_output features ai_techstack max_iterations
                verbose fs (Z.to_nat (max_iterations - iteration initial_state))
                initial_state tr1) as [L6 L7].
  rewrite Hloop in L6, L7. simpl in L6, L7.
  replace (max_iterations - 0) with max_iterations in L6 by lia.
  destruct o2 as [st|e]; [|intros [= <- <-]; lia].
  intros Hasm.
  pose proof (assemble_result_calls final_output features verbose fs st tr2) as A1.
  rewrite Hasm in A1. simpl in A1.
  destruct (assemble_result_trace _ _ _ _ _ _ Hasm) as [->|[p ->]].
  - lia.
  - rewrite calls_to_snoc in A1. rewrite !calls_to_snoc. simpl. lia.
Qed.

(** X13: Every run of the driver, however it ends, asks the schema agent exactly
    once and the documentation agent at most once, asks the reviewer at most
    as often as the coding agent and the coding agent at most
    [max_iterations] times, and asks no other agent. *)
Theorem driver_call_accounting verbose tr :
  let tr' := (service verbose tr).2 in
  calls_to file_schema_agent tr' = S (calls_to file_schema_agent tr) /\
  (calls_to documentation_agent tr' <= S (calls_to documentation_agent tr))%nat /\
  (calls_to code_reviewer_agent tr' - calls_to code_reviewer_agent tr
   <= calls_to coding_agent tr' - calls_to coding_agent tr)%nat /\
  (calls_to coding_agent tr' - calls_to coding_agent tr <= Z.to_nat max_iterations)%nat /\
  calls_to requirements_agent tr' = calls_to requirements_agent tr /\
  calls_to database_agent tr' = calls_to database_agent tr.
Proof.
  intros tr'. subst tr'.
  destruct (service verbose tr) as [o tr'] eqn:Hrun. simpl snd.
  exact (driver_calls verbose tr o tr' Hrun).
Qed.


(** *** Printing does not change the result *)

Lemma loop_body_failed verbose fs st tr code_result :
  code_of_response json_loads
    (final_output tr coding_agent
       (CodePrompt fs features ai_techstack (current_code st) (review_feedback st)))
    = Ok code_result ->
  code_failed code_result = Ok true ->
  body verbose fs st tr =
    (Ok (LoopState (current_code st) (review_feedback st) (iteration st + 1) (approved st)),
     tr ++ [Call coding_agent
              (CodePrompt fs features ai_techstack (current_code st) (review_feedback st))]).
Proof.
  intros Hcode Hfailed. unfold loop_body.
  rewrite M_bind_run, generate_code_run, Hcode.
  rewrite M_bind_run. unfold lift at 1. by rewrite Hfailed.
Qed.

Lemma loop_body_quiet fs st tr st' tr' :
  body true fs st tr = (Ok st', tr') -> body false fs st tr = (Ok st', tr').
Proof.
  intros H. unfold loop_body in H. rewrite M_bind_run, generate_code_run in H.
  destruct (code_of_response _ _) as [code_result|e] eqn:Hcode; [|done].
  rewrite M_bind_run in H. unfold lift at 1 in H.
  destruct (code_failed code_result) as [[|]|e] eqn:Hfailed; [| |done].
  { unfold mret, M_ret in H. injection H as <- <-.
    by apply (loop_body_failed false fs st tr code_result). }
  rewrite M_bind_run in H. unfold lift at 1 in H.
  destruct (py_get code_result _ _) as [code'|e] eqn:Hfiles; [|done].
  rewrite M_bind_run in H. unfold lift at 1 in H.
  destruct (py_when true _) as [[]|e] eqn:Hlen; [|done].
  rewrite M_bind_run, review_code_run in H.
  destruct (review_of_response _ _) as [review_result|e] eqn:Hreview; [|done].
  rewrite M_bind_run in H. unfold lift at 1 in H.
  destruct (py_get review_result (T "approved") _) as [approved'|e] eqn:Happroved; [|done].
  rewrite M_bind_run in H. unfold lift at 1 in H.
  destruct (py_get review_result (T "feedback_for_coder") _) as [feedback'|e] eqn:Hfeedback;
    [|done].
  rewrite M_bind_run in H. unfold lift at 1 in H.
  destruct (py_when true (print_review review_result approved')) as [[]|e] eqn:Hprint;
    [|done].
  unfold mret, M_ret in H. injection H as <- <-.
  by apply (loop_body_reviewed json_loads final_output features ai_techstack false fs
              st tr code_result code' review_result approved' feedback').
Qed.

Lemma loop_from_quiet fs dist st tr st' tr' :
  loop_from json_loads final_output features ai_techstack max_iterations true fs dist st tr
  = (Ok st', tr') ->
  loop_from json_loads final_output features ai_techstack max_iterations false fs dist st tr
  = (Ok st', tr').
Proof.
  revert st tr. induction dist as [|dist IH]; intros st tr; simpl; [done|].
  destruct (loop_guard max_iterations st); [|done].
  rewrite !M_bind_run.
  destruct (body true fs st tr) as [[st1|e] tr1] eqn:B; [|done].
  rewrite (loop_body_quiet _ _ _ _ _ B). apply IH.
Qed.

Lemma assemble_result_quiet fs st tr result tr' :
  assemble true fs st tr = (Ok result, tr') -> assemble false fs st tr = (Ok result, tr').
Proof.
  intros H.
  destruct fs as [| | | | | |d]; try done.
  destruct (current_code st) as [| | | | | |files] eqn:Hcode;
    (revert H; unfold assemble_result;
         rewrite M_bind_run; unfold lift at 1; simpl py_get; cbv beta iota;
         rewrite M_bind_run; unfold lift at 1; simpl py_get; cbv beta iota;
         rewrite M_bind_run, generate_documentation_run, Hcode; done).
Qed.

(** X15: The prints of the verbose mode only add ways to fail: whenever the
    verbose driver returns a result, the quiet one ([get_ai_service_code])
    returns the same result after the same calls. *)
Theorem quiet_run_agrees_with_verbose tr result tr' :
  service true tr = (Ok result, tr') ->
  get_ai_service_code json_loads final_output features ai_techstack max_iterations tr
  = (Ok result, tr').
Proof.
  intros H. unfold get_ai_service_code. unfold generate_ai_service in H |- *.
  rewrite M_bind_run, generate_file_schema_run in H.
  rewrite M_bind_run, generate_file_schema_run.
  destruct (schema_of_response _ _) as [fs|e]; [|done].
  rewrite M_bind_run in H. unfold lift at 1 in H.
  rewrite M_bind_run. unfold lift at 1.
  destruct (py_in _ fs) as [[|]|e]; [| |done].
  - rewrite M_bind_run in H. unfold lift at 1 in H.
    destruct (py_when true _) as [[]|e]; [|done].
    unfold mret, M_ret in H |- *. injection H as <- <-. reflexivity.
  - rewrite M_bind_run in H. unfold lift at 1 in H.
    destruct (py_when true _) as [[]|e]; [|done].
    rewrite M_bind_run in H.
    rewrite M_bind_run. unfold lift at 1. simpl py_when. cbv beta iota.
    rewrite M_bind_run. unfold coding_review_loop in H |- *.
    destruct (loop_from _ _ _ _ _ true _ _ _ _) as [[st|e] tr2] eqn:Hloop; [|done].
    rewrite (loop_from_quiet _ _ _ _ _ _ Hloop). by apply assemble_result_quiet.
Qed.

End MoreDriverFacts.

(* ================================================================== *)
(** * More about the requirements and database agents                  *)
(* ================================================================== *)

Section MoreOtherAgents.

Context (json_loads : text -> loads_result).
Context (final_output : trace -> Agent -> prompt -> text).

(** X16: [analyze_requirements] on the two kinds of answer it is written for.
    An answer that parses to an object comes back with every entry it had
    and with "Features" and "Techstack" added when they were missing (an
    empty list, and the technology stack of five empty lists); an answer
    that does not parse gives the error dictionary, with both keys at these
    default values and the answer under "raw_output". Either way the agent
    is asked once and nothing is raised. *)
Theorem analyze_requirements_fills_missing_keys p tr s :
  let raw := final_output tr requirements_agent (UserPrompt p) in
  let tr' := tr ++ [Call requirements_agent (UserPrompt p)] in
  unwrap_code_block (str_strip raw) = Ok s ->
  (forall d, json_loads s = Loaded (PDict d) ->
     exists d',
       analyze_requirements json_loads final_output p tr = (Ok (PDict d'), tr') /\
       d ⊆ d' /\
       d' !! T "Features" = Some (default (PList []) (d !! T "Features")) /\
       d' !! T "Techstack" = Some (default empty_techstack (d !! T "Techstack")) /\
       (forall k, k <> T "Features" -> k <> T "Techstack" -> d' !! k = d !! k)) /\
  (forall msg, json_loads s = DecodeError msg ->
     analyze_requirements json_loads final_output p tr
     = (Ok (requirements_error msg raw), tr') /\
     py_getitem (requirements_error msg raw) (T "Features") = Ok (PList []) /\
     py_getitem (requirements_error msg raw) (T "Techstack") = Ok empty_techstack /\
     py_getitem (requirements_error msg raw) (T "raw_output") = Ok (PStr raw) /\
     py_in (T "error") (requirements_error msg raw) = Ok true).
Proof.
  intros raw tr' Hs. split.
  - intros d Hd. rewrite analyze_requirements_run. fold raw tr'.
    rewrite (requirements_of_response_loaded json_loads raw s (PDict d) Hs Hd).
    cbn [py_in mbind outcome_bind].
    destruct (d !! T "Features") as [f|] eqn:Ef.
    + rewrite bool_decide_eq_true_2 by done. cbn [py_in mbind outcome_bind].
      destruct (d !! T "Techstack") as [t|] eqn:Et.
      * rewrite bool_decide_eq_true_2 by done.
        exists d. rewrite Ef, Et. by repeat split.
      * rewrite bool_decide_eq_false_2 by (by intros [? ?]).
        eexists. split; [done|]. split; [by apply insert_subseteq|].
        split; [by rewrite lookup_insert_ne|]. split; [by rewrite lookup_insert_eq|].
        intros k _ Hk. by rewrite lookup_insert_ne.
    + rewrite bool_decide_eq_false_2 by (by intros [? ?]).
      cbn [py_setitem py_in mbind outcome_bind].
      rewrite lookup_insert_ne by done.
      destruct (d !! T "Techstack") as [t|] eqn:Et.
      * rewrite bool_decide_eq_true_2 by done.
        eexists. split; [done|]. split; [by apply insert_subseteq|].
        split; [by rewrite lookup_insert_eq|]. split; [by rewrite lookup_insert_ne|].
        intros k Hk _. by rewrite lookup_insert_ne.
      * rewrite bool_decide_eq_false_2 by (by intros [? ?]).
        eexists. split; [done|]. split.
        { etransitivity; [apply (insert_subseteq d (T "Features") (PList [])); done|].
          apply insert_subseteq. by rewrite lookup_insert_ne. }
        split; [rewrite lookup_insert_ne by done; by rewrite lookup_insert_eq|].
        split; [by rewrite lookup_insert_eq|].
        intros k Hk1 Hk2. by rewrite !lookup_insert_ne.
  - intros msg Hmsg. rewrite analyze_requirements_run. fold raw tr'.
    destruct (requirements_of_response_unparsed json_loads raw s msg Hs Hmsg)
      as (-> & H1 & H2 & H3).
    by repeat split.
Qed.

(** X17: [generate_schemas] on the answers it is written for. An object with a
    "schemas" key is returned as it is; an object without one, and likewise
    a list without the element "schemas", is returned wrapped as the value
    of a new "schemas" key, the only key of the result; an answer that does
    not parse gives the error dictionary with an empty "schemas" and the
    answer under "raw_output". *)
Theorem generate_schemas_wraps_missing_key reqs techs tr s :
  let raw := final_output tr database_agent (DatabasePrompt reqs techs) in
  let tr' := tr ++ [Call database_agent (DatabasePrompt reqs techs)] in
  unwrap_code_block (str_strip raw) = Ok s ->
  (forall d, json_loads s = Loaded (PDict d) -> is_Some (d !! T "schemas") ->
     generate_schemas json_loads final_output reqs techs tr = (Ok (PDict d), tr')) /\
  (forall d, json_loads s = Loaded (PDict d) -> d !! T "schemas" = None ->
     generate_schemas json_loads final_output reqs techs tr
     = (Ok (PDict {[ T "schemas" := PDict d ]}), tr')) /\
  (forall l, json_loads s = Loaded (PList l) ->
     existsb (fun x => py_eq_str x (T "schemas")) l = false ->
     generate_schemas json_loads final_output reqs techs tr
     = (Ok (PDict {[ T "schemas" := PList l ]}), tr')) /\
  (forall msg, json_loads s = DecodeError msg ->
     generate_schemas json_loads final_output reqs techs tr
     = (Ok (schemas_error msg raw), tr') /\
     py_getitem (schemas_error msg raw) (T "schemas") = Ok (PDict ∅) /\
     py_getitem (schemas_error msg raw) (T "raw_output") = Ok (PStr raw)).
Proof.
  intros raw tr' Hs. split; [|split; [|split]].
  - intros d Hd Hk. rewrite generate_schemas_run. fold raw tr'.
    rewrite (schemas_of_response_loaded json_loads raw s (PDict d) Hs Hd).
    cbn [py_in mbind outcome_bind]. by rewrite bool_decide_eq_true_2.
  - intros d Hd Hk. rewrite generate_schemas_run. fold raw tr'.
    rewrite (schemas_of_response_loaded json_loads raw s (PDict d) Hs Hd).
    cbn [py_in mbind outcome_bind].
    by rewrite bool_decide_eq_false_2 by (rewrite Hk; by intros [? ?]).
  - intros l Hl Hno. rewrite generate_schemas_run. fold raw tr'.
    rewrite (schemas_of_response_loaded json_loads raw s (PList l) Hs Hl).
    cbn [py_in mbind outcome_bind]. by rewrite Hno.
  - intros msg Hmsg. rewrite generate_schemas_run. fold raw tr'.
    destruct (schemas_of_response_unparsed json_loads raw s msg Hs Hmsg) as (-> & H1 & H2).
    by repeat split.
Qed.

End MoreOtherAgents.

(* ================================================================== *)
(** * The names and the port discovery of [run_container]              *)
(* ================================================================== *)

Section InfraFacts.

(** Splitting at one character. *)
Lemma str_startswith_char c b s : str_startswith [c] (b :: s) = (c =? b)%N.
Proof. simpl. apply andb_true_r. Qed.

Lemma str_find_char_None c s : c ∉ s -> str_find [c] s = None.
Proof.
  induction s as [|b s IH]; intros H; rewrite str_find_unfold; [done|].
  rewrite str_startswith_char.
  destruct (N.eqb_spec c b) as [->|Hne]; [by destruct H; left|].
  rewrite IH; [done|]. intros Hin. apply H. by right.
Qed.

Lemma elem_of_rev c (l : text) : c ∈ rev l <-> c ∈ l.
Proof. rewrite !list_elem_of_In. symmetry. apply in_rev. Qed.

Lemma split_char_pieces c s cur :
  c ∉ cur -> Forall (fun piece => c ∉ piece) (split_scan [c] 0 cur s).
Proof.
  revert cur. induction s as [|b s IH]; intros cur Hcur.
  - simpl. constructor; [|done]. by rewrite elem_of_rev.
  - rewrite split_scan_cons, str_startswith_char.
    destruct (N.eqb_spec c b) as [->|Hne].
    + constructor; [by rewrite elem_of_rev|].
      change (length [b] - 1)%nat with 0%nat. apply IH. by intros ?%elem_of_nil.
    + apply IH. intros [->|H]%elem_of_cons; [done|by apply Hcur].
Qed.

(** Every piece is made of characters of the text, in their order. *)
Lemma split_scan_piece_sublist sep s k cur piece :
  piece ∈ split_scan sep k cur s -> piece `sublist_of` rev cur ++ s.
Proof.
  revert k cur. induction s as [|b s IH]; intros k cur.
  - simpl. intros ->%list_elem_of_singleton. by rewrite app_nil_r.
  - destruct k as [|k].
    + rewrite split_scan_cons. destruct (str_startswith sep (b :: s)).
      * intros [->|H]%elem_of_cons; [by apply sublist_inserts_r|].
        apply IH in H. simpl in H. by apply sublist_inserts_l, sublist_cons.
      * intros H. apply IH in H. simpl in H. by rewrite <- app_assoc in H.
    + simpl. intros H. apply IH in H.
      apply sublist_app_r in H as (l1 & l2 & -> & H1 & H2).
      apply sublist_app; [done|by apply sublist_cons].
Qed.

Lemma split_scan_ne sep k cur s : split_scan sep k cur s <> [].
Proof.
  pose proof (split_scan_nonempty sep s k cur) as H.
  destruct (split_scan sep k cur s); [simpl in H; lia|done].
Qed.

Lemma last_cons_ne (x : text) l : l <> [] -> last (x :: l) = last l.
Proof. by destruct l. Qed.

(** The last piece is what stands behind the last separator. *)
Lemma split_char_last c a name cur :
  c ∉ name -> last (split_scan [c] 0 cur (a ++ c :: name)) = Some name.
Proof.
  intros Hname. revert cur. induction a as [|b a IH]; intros cur.
  - simpl app. rewrite split_scan_cons, str_startswith_char, N.eqb_refl.
    change (length [c] - 1)%nat with 0%nat.
    rewrite (split_scan_none [c] name []) by (by apply str_find_char_None). done.
  - simpl app. rewrite split_scan_cons, str_startswith_char.
    change (length [c] - 1)%nat with 0%nat.
    destruct (c =? b)%N; [|apply IH].
    rewrite last_cons_ne by apply split_scan_ne. apply IH.
Qed.

Lemma service_name_steps image :
  service_name image =
    (repository ← py_index (split_scan [colon] 0 [] image) 0;
     py_index_last (split_scan [slash] 0 [] repository)).
Proof. reflexivity. Qed.

(** The piece before the first colon. *)
Lemma split_colon_first repo rest :
  colon ∉ repo -> (rest = [] \/ exists r, rest = colon :: r) ->
  py_index (split_scan [colon] 0 [] (repo ++ rest)) 0 = Ok repo.
Proof.
  intros Hrepo [->|[r ->]].
  - rewrite app_nil_r, (split_scan_none [colon] repo []) by (by apply str_find_char_None).
    done.
  - change (colon :: r) with ([colon] ++ r).
    rewrite (split_scan_first [colon] repo r []); [done..|].
    clear r. induction repo as [|b repo IH]; [done|].
    change ((b :: repo) ++ [colon]) with (b :: (repo ++ [colon])).
    rewrite str_find_unfold, str_startswith_char.
    destruct (N.eqb_spec colon b) as [<-|Hne]; [by destruct Hrepo; left|].
    rewrite IH; [done|]. intros H. apply Hrepo. by right.
Qed.

(** X18: The service name of an image never raises and has neither a colon nor
    a slash in it; and for an image name of the form
    [path ++ name ++ tag], where [path] is empty or ends with a slash,
    [name] has no slash, neither has a colon, and [tag] is empty or starts
    with a colon, it is [name]. *)
Theorem service_name_of_image image :
  (exists name,
      service_name image = Ok name /\ (colon ∉ name) /\ (slash ∉ name)) /\
  (forall path name tag,
      image = path ++ name ++ tag ->
      (path = [] \/ exists p, path = p ++ [slash]) ->
      (tag = [] \/ exists t, tag = colon :: t) ->
      colon ∉ path -> colon ∉ name -> slash ∉ name ->
      service_name image = Ok name).
Proof.
  split.
  - rewrite service_name_steps.
    pose proof (split_char_pieces colon image [] ltac:(by intros ?%elem_of_nil)) as Hc.
    destruct (split_scan [colon] 0 [] image) as [|repo parts] eqn:E;
      [by destruct (split_scan_ne [colon] 0 [] image)|].
    apply Forall_cons in Hc as [Hrepo _].
    rewrite py_index_first, outcome_bind_Ok.
    pose proof (split_char_pieces slash repo [] ltac:(by intros ?%elem_of_nil)) as Hs.
    unfold py_index_last.
    destruct (last (split_scan [slash] 0 [] repo)) as [name|] eqn:L.
    + exists name. split; [done|].
      assert (Hin : name ∈ split_scan [slash] 0 [] repo).
      { apply last_Some in L as [l' ->]. apply elem_of_app. right. by left. }
      split.
      * intros Hname. apply Hrepo.
        apply (elem_of_sublist name repo colon Hname).
        apply (split_scan_piece_sublist [slash] repo 0 [] name Hin).
      * by apply (proj1 (Forall_forall _ _) Hs name Hin).
    + apply last_None in L. by destruct (split_scan_ne [slash] 0 [] repo).
  - intros path name tag -> Hpath Htag Hcp Hcn Hsn.
    rewrite service_name_steps, app_assoc.
    rewrite split_colon_first; [|by intros [?|?]%elem_of_app|done].
    rewrite outcome_bind_Ok. unfold py_index_last.
    destruct Hpath as [->|[p ->]].
    + simpl. by rewrite (split_scan_none [slash] name []) by (by apply str_find_char_None).
    + rewrite <- app_assoc. simpl. by rewrite split_char_last.
Qed.

(** *** Port discovery *)

Lemma assign_port_effect container_ports m a port_key m' a' :
  assign_port container_ports (m, a) port_key = Ok (m', a') ->
  (m' = m /\ a' = false) \/ (exists host_port, m' = <[port_key := host_port]> m /\ a' = a).
Proof.
  unfold assign_port.
  destruct (py_get container_ports port_key PNone) as [port_info|e]; [|done].
  rewrite outcome_bind_Ok.
  destruct (if truthy port_info then _ else _) as [[|]|e]; [| |done]; rewrite outcome_bind_Ok.
  - destruct (py_item0 port_info) as [first|e]; [|done]. rewrite outcome_bind_Ok.
    destruct (py_getitem first (T "HostPort")) as [host_port|e]; [|done].
    rewrite outcome_bind_Ok. intros [= <- <-]. right. by exists host_port.
  - intros [= <- <-]. by left.
Qed.

(** One round over the requested ports: mappings are only added, only for
    requested ports, and the round reports "all assigned" only if it was so
    before and every requested port now has a mapping. *)
Lemma assign_ports_effect container_ports ks m a m' a' :
  assign_ports container_ports (m, a) ks = Ok (m', a') ->
  (forall k, is_Some (m !! k) -> is_Some (m' !! k)) /\
  (forall k, is_Some (m' !! k) -> is_Some (m !! k) \/ k ∈ ks) /\
  (a' = true -> a = true /\ forall k, k ∈ ks -> is_Some (m' !! k)).
Proof.
  revert m a. induction ks as [|port_key ks IH]; intros m a; simpl.
  - intros [= <- <-]. split; [done|]. split; [by left|].
    intros ->. split; [done|]. by intros k ?%elem_of_nil.
  - destruct (assign_port container_ports (m, a) port_key) as [[m1 a1]|e] eqn:E; [|done].
    rewrite outcome_bind_Ok. intros Hrest.
    destruct (IH m1 a1 Hrest) as (Hmono & Hdom & Hall).
    destruct (assign_port_effect _ _ _ _ _ _ E) as [[-> ->]|(h & -> & ->)].
    + split; [done|]. split.
      * intros k Hk. destruct (Hdom k Hk) as [?|?]; [by left|right; by right].
      * intros Ha. by destruct (Hall Ha).
    + split; [|split].
      * intros k Hk. apply Hmono.
        destruct (decide (port_key = k)) as [->|Hne];
          [by rewrite lookup_insert_eq|by rewrite lookup_insert_ne].
      * intros k Hk. destruct (Hdom k Hk) as [Hk'|Hk']; [|right; by right].
        destruct (decide (port_key = k)) as [->|Hne]; [right; by left|].
        left. by rewrite lookup_insert_ne in Hk'.
      * intros Ha. destruct (Hall Ha) as [-> Hks]. split; [done|].
        intros k [->|Hk]%elem_of_cons; [|by apply Hks].
        apply Hmono. by rewrite lookup_insert_eq.
Qed.

Section PollFacts.

Context (ports_after : nat -> outcome pyval) (keys : list text).

Local Abbreviation poll := (poll_ports ports_after keys).

Lemma poll_ports_effect attempts made m m' n :
  poll attempts made m = Ok (m', n) ->
  (made <= n <= made + attempts)%nat /\
  ((0 < attempts)%nat -> (made < n)%nat) /\
  (forall k, is_Some (m !! k) -> is_Some (m' !! k)) /\
  (forall k, is_Some (m' !! k) -> is_Some (m !! k) \/ k ∈ keys) /\
  ((n < made + attempts)%nat -> forall k, k ∈ keys -> is_Some (m' !! k)).
Proof.
  revert made m. induction attempts as [|attempts IH]; intros made m; simpl.
  - intros [= <- <-]. split; [lia|]. split; [lia|]. split; [done|]. split; [by left|]. lia.
  - destruct (ports_after (S made)) as [container_ports|e]; [|done].
    rewrite outcome_bind_Ok.
    destruct (assign_ports container_ports (m, true) keys) as [[m1 all]|e] eqn:E; [|done].
    rewrite outcome_bind_Ok.
    destruct (assign_ports_effect _ _ _ _ _ _ E) as (Hmono & Hdom & Hall).
    destruct all.
    + intros [= <- <-]. split; [lia|]. split; [lia|]. split; [done|]. split; [done|].
      intros _. by destruct (Hall eq_refl).
    + intros Hrest. destruct (IH (S made) m1 Hrest) as (Hn & _ & Imono & Idom & Iall).
      split; [lia|]. split; [lia|]. split; [by intros k Hk; apply Imono, Hmono|]. split.
      * intros k Hk. destruct (Idom k Hk) as [Hk'|?]; [by apply Hdom|by right].
      * intros Hlt. apply Iall. lia.
Qed.

(** X19: The port discovery of [run_container] reloads the container at most
    ten times, and not at all when no port was requested; the mappings it
    returns are for requested ports only; and when it stopped before the
    tenth reload, every requested port has a mapping. *)
Theorem port_discovery_is_bounded m n :
  discover_ports ports_after keys = Ok (m, n) ->
  (n <= 10)%nat /\
  (keys = [] -> n = 0%nat /\ m = ∅) /\
  (keys <> [] -> (1 <= n)%nat) /\
  (forall k, is_Some (m !! k) -> k ∈ keys) /\
  ((n < 10)%nat -> forall k, k ∈ keys -> is_Some (m !! k)).
Proof.
  unfold discover_ports. destruct keys as [|k0 ks] eqn:Ekeys.
  - intros [= <- <-]. split; [lia|]. split; [done|]. split; [done|].
    split; [by intros k [? ?%lookup_empty_Some]|]. by intros _ k ?%elem_of_nil.
  - rewrite <- Ekeys. intros Hpoll.
    destruct (poll_ports_effect _ _ _ _ _ Hpoll) as (Hn & Hmade & _ & Hdom & Hall).
    split; [lia|]. split; [by rewrite Ekeys|]. split; [intros _; lia|]. split.
    + intros k Hk. destruct (Hdom k Hk) as [[? ?%lookup_empty_Some]|?]; done.
    + intros Hlt. apply Hall. lia.
Qed.

End PollFacts.

End InfraFacts.

(* ================================================================== *)
(** * A reasoning span in front of the answer                          *)
(* ================================================================== *)

Section LeadingSpan.

Implicit Types (s w : text).

Lemma str_lstrip_decompose s : exists w, all_space w /\ s = w ++ str_lstrip s.
Proof.
  induction s as [|c s (w & Hw & IH)]; simpl.
  { exists []. split; [constructor|done]. }
  destruct (is_space c) eqn:E.
  - exists (c :: w). split; [by constructor|]. simpl. by rewrite <- IH.
  - exists []. split; [constructor|done].
Qed.

Lemma str_rstrip_decompose s : exists w, all_space w /\ s = str_rstrip s ++ w.
Proof.
  destruct (str_lstrip_decompose (rev s)) as (w & Hw & Hs).
  exists (rev w). split; [by apply List.Forall_rev|].
  unfold str_rstrip. rewrite <- rev_app_distr, <- Hs. by rewrite rev_involutive.
Qed.

(** [strip] returns a piece of the text, between two runs of whitespace. *)
Lemma str_strip_decompose s :
  exists w1 w2, all_space w1 /\ all_space w2 /\ s = w1 ++ str_strip s ++ w2.
Proof.
  destruct (str_lstrip_decompose s) as (w1 & H1 & Hs).
  destruct (str_rstrip_decompose (str_lstrip s)) as (w2 & H2 & Hl).
  exists w1, w2. split; [done|]. split; [done|]. unfold str_strip. by rewrite <- Hl.
Qed.

(** A text whose last character is no whitespace is kept by [rstrip]. *)
Lemma str_rstrip_app_solid a c s :
  is_space c = false -> str_rstrip ((a ++ [c]) ++ s) = (a ++ [c]) ++ str_rstrip s.
Proof.
  intros Hc. unfold str_rstrip.
  assert (Hrev : rev ((a ++ [c]) ++ s) = rev s ++ c :: rev a).
  { rewrite (rev_app_distr (a ++ [c]) s), (rev_app_distr a [c]). done. }
  assert (Hback : rev (c :: rev a) = a ++ [c]).
  { simpl. by rewrite rev_involutive. }
  rewrite Hrev.
  destruct (str_lstrip_app_cases (rev s) (c :: rev a)) as [->|[Hs ->]].
  - by rewrite rev_app_distr, Hback.
  - rewrite Hs. simpl str_lstrip. rewrite Hc, Hback. simpl. by rewrite app_nil_r.
Qed.

Context (json_loads : text -> loads_result).

(** X4: An answer that opens with a reasoning span is parsed as if the span
    were not there, whatever the span holds (fenced blocks included): for
    a span closed by the first closing marker behind [mid], in front of a
    text [post] without a matched pair of markers, [parse_json_response]
    gives what it gives on [post]. *)
Theorem leading_reasoning_span_is_dropped mid post :
  str_find think_close (mid ++ think_close) = Some (length mid) ->
  (forall pre m r, post <> pre ++ think_open ++ m ++ think_close ++ r) ->
  parse_json_response json_loads (think_open ++ mid ++ think_close ++ post)
  = parse_json_response json_loads post.
Proof.
  intros Hmid Hpost.
  assert (Hno : forall s w1 w2, post = w1 ++ s ++ w2 ->
            forall pre m r, s <> pre ++ think_open ++ m ++ think_close ++ r).
  { intros s w1 w2 -> pre m r ->. apply (Hpost (w1 ++ pre) m (r ++ w2)).
    by rewrite <- !app_assoc. }
  assert (Hsub : forall s w1 w2, post = w1 ++ s ++ w2 -> re_sub think_re s = s).
  { intros s w1 w2 Hs. apply re_sub_no_span; first [done | by apply (Hno s w1 w2)]. }
  destruct (str_strip_decompose post) as (w1 & w2 & H1 & H2 & Hdec).
  destruct (str_rstrip_decompose post) as (w & Hw & Hr).
  assert (Hright : remove_think_tags (str_strip post) = str_strip post).
  { unfold remove_think_tags. rewrite (Hsub _ w1 w2 Hdec), str_strip_idem.
    by destruct (str_in think_open (str_strip post)). }
  assert (Hstrip : str_strip (think_open ++ mid ++ think_close ++ post)
                   = think_open ++ mid ++ think_close ++ str_rstrip post).
  { unfold str_strip.
    change (str_lstrip (think_open ++ mid ++ think_close ++ post))
      with (think_open ++ mid ++ think_close ++ post).
    change think_close with (T "</think" ++ [62%N]).
    rewrite !app_assoc.
    by rewrite (str_rstrip_app_solid _ 62%N post eq_refl). }
  assert (Hspan : re_sub think_re (think_open ++ mid ++ think_close ++ str_rstrip post)
                  = re_sub think_re (str_rstrip post)).
  { assert (H : re_sub think_re ([] ++ think_open ++ mid ++ think_close ++ str_rstrip post)
                 = [] ++ re_sub think_re (str_rstrip post))
      by (by apply re_sub_span).
    exact H. }
  assert (Hleft : remove_think_tags (think_open ++ mid ++ think_close ++ str_rstrip post)
                  = str_strip post).
  { unfold remove_think_tags.
    replace (str_in think_open (think_open ++ mid ++ think_close ++ str_rstrip post))
      with true
      by (symmetry; apply str_in_true; by exists [], (mid ++ think_close ++ str_rstrip post)).
    rewrite Hspan, (Hsub (str_rstrip post) [] w Hr).
    transitivity (str_strip ([] ++ str_rstrip post ++ w)).
    - symmetry. apply str_strip_padding; [constructor|done].
    - simpl. by rewrite <- Hr. }
  unfold parse_json_response. by rewrite Hstrip, Hleft, Hright.
Qed.

End LeadingSpan.

(* ================================================================== *)
(** * A code answer without "files"                                    *)
(* ================================================================== *)

Section MissingFiles.

Context (json_loads : text -> loads_result).
Context (final_output : trace -> Agent -> prompt -> text).
Context (features ai_techstack : list text) (verbose : bool) (file_schema : pyval).

Local Abbreviation body :=
  (loop_body json_loads final_output features ai_techstack verbose file_schema).

(** X9: A code answer that parses to an object without a "files" key (and is
    not taken for a failure) empties the bundle: whatever code the earlier
    iterations produced is replaced by [{}], and it is the empty bundle the
    reviewer is asked about. *)
Theorem code_answer_without_files_empties_bundle st tr d :
  let p := CodePrompt file_schema features ai_techstack
             (current_code st) (review_feedback st) in
  parse_json_response json_loads (final_output tr coding_agent p) = Ok (PDict d) ->
  code_failed (PDict d) = Ok false ->
  d !! T "files" = None ->
  exists o,
    body st tr =
      (o, tr ++ [Call coding_agent p;
                 Call code_reviewer_agent (ReviewPrompt file_schema features (PDict ∅))]) /\
    (forall st', o = Ok st' -> current_code st' = PDict ∅).
Proof.
  intros p Hparse Hfailed Hfiles. unfold loop_body. fold p.
  rewrite M_bind_run, generate_code_run. fold p.
  unfold code_of_response. rewrite Hparse, except_decode_Ok.
  rewrite M_bind_run. unfold lift at 1. rewrite Hfailed.
  rewrite M_bind_run. unfold lift at 1. cbn [py_get]. rewrite Hfiles. cbn [default].
  rewrite M_bind_run. unfold lift at 1.
  replace (py_when verbose (_ ← py_len (PDict ∅); Ok tt)) with (@Ok unit tt)
    by (by destruct verbose).
  rewrite M_bind_run, review_code_run, <- app_assoc. simpl app.
  destruct (review_of_response _ _) as [review_result|e]; [|by eexists].
  rewrite M_bind_run. unfold lift at 1.
  destruct (py_get review_result _ _) as [approved'|e]; [|by eexists].
  rewrite M_bind_run. unfold lift at 1.
  destruct (py_get review_result _ _) as [feedback'|e]; [|by eexists].
  rewrite M_bind_run. unfold lift at 1.
  destruct (py_when verbose _) as [[]|e]; [|by eexists].
  eexists. split; [done|]. by intros st' [= <-].
Qed.

End MissingFiles.

(* ================================================================== *)
(** * The further properties at concrete inputs                        *)
(* ================================================================== *)

Example service_name_plain : service_name (T "mongo:latest") = Ok (T "mongo").
Proof. vm_compute. reflexivity. Qed.

Example service_name_namespaced : service_name (T "ghcr.io/acme/api:1.2") = Ok (T "api").
Proof. vm_compute. reflexivity. Qed.

(** The colon of a registry port is taken for the tag separator. *)
Example service_name_registry_port :
  service_name (T "localhost:5000/mongo:latest") = Ok (T "localhost").
Proof. vm_compute. reflexivity. Qed.

Example service_name_empty : service_name [] = Ok [].
Proof. vm_compute. reflexivity. Qed.

Example discover_ports_late :
  discover_ports late_ports [T "80/tcp"]
  = Ok ({[ T "80/tcp" := PStr (T "32768") ]}, 3%nat).
Proof. vm_compute. reflexivity. Qed.

(** A port that never gets bound: ten reloads, and an empty mapping. *)
Example discover_ports_never :
  discover_ports (fun _ => Ok (PDict ∅)) [T "80/tcp"] = Ok (∅, 10%nat).
Proof. vm_compute. reflexivity. Qed.

Example parse_error_report :
  parse_json_response stub_loads_error error_report_text = Ok (PDict error_report).
Proof. vm_compute. reflexivity. Qed.

Lemma unwrap_json_fenced_block_witness :
  unwrap_code_block (T "Here it is: ```json {} ``` or ```json [] ``` Bye.") = Ok (T "{}").
Proof.
  exact (proj1 (unwrap_json_fenced_block (T "Here it is: ") eq_refl)
           (T " {} ") (T " or ```json [] ``` Bye.") eq_refl eq_refl eq_refl).
Defined.

(** A closing run of four backticks in front of [json]: one stays. *)
Example unwrap_json_fence_in_closing_run :
  unwrap_code_block (T "```json {} ````json [] ```") = Ok (T "{} `").
Proof. vm_compute. reflexivity. Qed.

Lemma unwrap_plain_fenced_block_witness :
  unwrap_code_block (T "Sure. ``` [] ``` Done.") = Ok (T "[]").
Proof.
  exact (proj1 (unwrap_plain_fenced_block (T "Sure. ") eq_refl)
           (T " [] ") (T " Done.") eq_refl eq_refl).
Defined.

Lemma parse_json_response_trims_witness :
  parse_json_response stub_loads (T "  " ++ T "{}" ++ [10%N]) = Ok (PDict ∅).
Proof.
  assert (H1 : all_space (T "  ")) by (repeat constructor).
  assert (H2 : all_space [10%N]) by (repeat constructor).
  exact (proj2 (parse_json_response_trims stub_loads (T "  ") (T "{}") [10%N] H1 H2)
           eq_refl eq_refl).
Defined.

Lemma leading_reasoning_span_is_dropped_witness :
  parse_json_response stub_loads (T "<think> plan: ```json [] ``` </think>{}")
  = parse_json_response stub_loads (T "{}").
Proof.
  assert (Hno : forall pre m r : text,
            T "{}" <> pre ++ think_open ++ m ++ think_close ++ r).
  { intros pre m r H. apply (f_equal length) in H.
    rewrite !length_app in H. simpl in H. lia. }
  exact (leading_reasoning_span_is_dropped stub_loads (T " plan: ```json [] ``` ") (T "{}")
           eq_refl Hno).
Defined.

Lemma reported_code_error_skips_review_witness :
  loop_body stub_loads_error (constant_model error_report_text)
    [T "user login"] [T "X"] true (PDict ∅) initial_state []
  = (Ok (LoopState (PDict ∅) (PStr []) 1 (PBool false)),
     [Call coding_agent (CodePrompt (PDict ∅) [T "user login"] [T "X"] (PDict ∅) (PStr []))]).
Proof.
  assert (Hparse : parse_json_response stub_loads_error
                     (constant_model error_report_text [] coding_agent
                        (CodePrompt (PDict ∅) [T "user login"] [T "X"]
                           (current_code initial_state) (review_feedback initial_state)))
                   = Ok (PDict error_report))
    by (vm_compute; reflexivity).
  assert (Hreport : is_Some (error_report !! T "error") /\
                    error_report !! T "status" = Some (PStr (T "error"))).
  { split; [exists (PStr (T "busy"))|]; vm_compute; reflexivity. }
  exact (proj1 (reported_code_error_skips_review stub_loads_error
                  (constant_model error_report_text) [T "user login"] [T "X"] true
                  (PDict ∅) initial_state [] error_report Hparse) Hreport).
Defined.

Lemma non_object_code_answer_raises_witness :
  exists e,
    (e = TypeError \/ e = AttributeError) /\
    coding_review_loop stub_loads (constant_model (T "42")) [T "user login"] [T "X"] 3
      false (PDict ∅) initial_state []
    = (Raise e,
       [Call coding_agent
          (CodePrompt (PDict ∅) [T "user login"] [T "X"] (PDict ∅) (PStr []))]).
Proof.
  destruct (non_object_code_answer_raises stub_loads (constant_model (T "42"))
              [T "user login"] [T "X"] 3 false (PDict ∅) initial_state [] (PInt 42))
    as (e & He & _ & Hloop).
  { vm_compute. reflexivity. }
  { intros d. discriminate. }
  exists e. split; [exact He|]. exact (Hloop eq_refl).
Defined.

Lemma non_object_review_answer_raises_witness :
  loop_body stub_loads (staged_model (T "{}") (T "{}") (T "[]") (T "docs"))
    [T "user login"] [T "X"] false (PDict ∅) initial_state []
  = (Raise AttributeError,
     [Call coding_agent (CodePrompt (PDict ∅) [T "user login"] [T "X"] (PDict ∅) (PStr []));
      Call code_reviewer_agent (ReviewPrompt (PDict ∅) [T "user login"] (PDict ∅))]).
Proof.
  apply (non_object_review_answer_raises stub_loads
           (staged_model (T "{}") (T "{}") (T "[]") (T "docs"))
           [T "user login"] [T "X"] false (PDict ∅) initial_state []
           (PDict ∅) (PDict ∅) (PList [])).
  - vm_compute. reflexivity.
  - vm_compute. reflexivity.
  - vm_compute. reflexivity.
  - reflexivity.
  - vm_compute. reflexivity.
  - intros d. discriminate.
Defined.

Lemma code_answer_without_files_empties_bundle_witness :
  exists o,
    loop_body stub_loads (staged_model (T "{}") (T "{}") approve_text (T "docs"))
      [T "user login"] [T "X"] false (PDict ∅)
      (LoopState (PDict {[ T "main.py" := PStr (T "print(1)") ]}) (PStr (T "fix it")) 1
         (PBool false)) []
    = (o,
       [Call coding_agent
          (CodePrompt (PDict ∅) [T "user login"] [T "X"]
             (PDict {[ T "main.py" := PStr (T "print(1)") ]}) (PStr (T "fix it")));
        Call code_reviewer_agent (ReviewPrompt (PDict ∅) [T "user login"] (PDict ∅))]) /\
    (forall st', o = Ok st' -> current_code st' = PDict ∅).
Proof.
  apply (code_answer_without_files_empties_bundle stub_loads
           (staged_model (T "{}") (T "{}") approve_text (T "docs"))
           [T "user login"] [T "X"] false (PDict ∅)
           (LoopState (PDict {[ T "main.py" := PStr (T "print(1)") ]}) (PStr (T "fix it")) 1
              (PBool false)) [] ∅).
  - vm_compute. reflexivity.
  - vm_compute. reflexivity.
  - reflexivity.
Defined.

Lemma loop_postcondition_witness :
  exists st tr',
    coding_review_loop stub_loads (staged_model (T "{}") (T "{}") approve_text (T "docs"))
      [T "user login"] [T "X"] 3 false (PDict ∅) initial_state [] = (Ok st, tr') /\
    0 <= iteration st <= 3 /\
    Z.of_nat (calls_to coding_agent tr') = Z.of_nat (calls_to coding_agent []) + iteration st /\
    (truthy (approved st) = true \/ iteration st = 3).
Proof.
  pose (st := LoopState (PDict ∅) (PStr []) 1 (PBool true)).
  pose (tr' := [Call coding_agent
                  (CodePrompt (PDict ∅) [T "user login"] [T "X"] (PDict ∅) (PStr []));
                Call code_reviewer_agent
                  (ReviewPrompt (PDict ∅) [T "user login"] (PDict ∅))]).
  assert (Hrun : coding_review_loop stub_loads
                   (staged_model (T "{}") (T "{}") approve_text (T "docs"))
                   [T "user login"] [T "X"] 3 false (PDict ∅) initial_state []
                 = (Ok st, tr'))
    by (vm_compute; reflexivity).
  assert (H : 0 <= 3) by lia.
  destruct (loop_postcondition stub_loads
              (staged_model (T "{}") (T "{}") approve_text (T "docs"))
              [T "user login"] [T "X"] 3 false (PDict ∅) [] st tr' H Hrun)
    as (Hit & Hcalls & Hexit & _).
  exists st, tr'. split; [exact Hrun|]. split; [exact Hit|]. split; [exact Hcalls|exact Hexit].
Defined.



Lemma quiet_run_agrees_with_verbose_witness :
  exists result tr',
    get_ai_service_code stub_loads (staged_model (T "{}") (T "{}") approve_text (T " # Docs "))
      [T "user login"] [T "X"] 3 [] = (Ok result, tr') /\
    map call_agent tr'
    = [file_schema_agent; coding_agent; code_reviewer_agent; documentation_agent].
Proof.
  destruct (generate_ai_service stub_loads
              (staged_model (T "{}") (T "{}") approve_text (T " # Docs "))
              [T "user login"] [T "X"] 3 true []) as [[result|e] tr'] eqn:Hrun.
  - exists result, tr'. split.
    + exact (quiet_run_agrees_with_verbose stub_loads
               (staged_model (T "{}") (T "{}") approve_text (T " # Docs "))
               [T "user login"] [T "X"] 3 [] result tr' Hrun).
    + vm_compute in Hrun. injection Hrun as _ <-. reflexivity.
  - vm_compute in Hrun. discriminate Hrun.
Defined.

Lemma analyze_requirements_fills_missing_keys_witness :
  exists d',
    analyze_requirements stub_loads (constant_model (T "{}")) (T "a to-do list app") []
    = (Ok (PDict d'), [Call requirements_agent (UserPrompt (T "a to-do list app"))]) /\
    d' !! T "Features" = Some (PList []) /\
    d' !! T "Techstack" = Some empty_techstack.
Proof.
  destruct (proj1 (analyze_requirements_fills_missing_keys stub_loads
                     (constant_model (T "{}")) (T "a to-do list app") [] (T "{}") eq_refl)
              ∅ eq_refl)
    as (d' & Hrun & _ & Hfeatures & Htechstack & _).
  exists d'. split; [exact Hrun|]. split; [exact Hfeatures|exact Htechstack].
Defined.

Lemma generate_schemas_wraps_missing_key_witness :
  generate_schemas stub_loads (constant_model (T "{}")) [T "user login"] [T "PostgreSQL"] []
  = (Ok (PDict {[ T "schemas" := PDict ∅ ]}),
     [Call database_agent (DatabasePrompt [T "user login"] [T "PostgreSQL"])]).
Proof.
  exact (proj1 (proj2 (generate_schemas_wraps_missing_key stub_loads
                         (constant_model (T "{}")) [T "user login"] [T "PostgreSQL"] []
                         (T "{}") eq_refl))
           ∅ eq_refl eq_refl).
Defined.

Lemma port_discovery_is_bounded_witness :
  discover_ports late_ports [T "80/tcp"]
  = Ok ({[ T "80/tcp" := PStr (T "32768") ]}, 3%nat) /\
  (3 <= 10)%nat /\
  is_Some (({[ T "80/tcp" := PStr (T "32768") ]} : gmap (list N) pyval) !! T "80/tcp").
Proof.
  assert (Hrun : discover_ports late_ports [T "80/tcp"]
                 = Ok ({[ T "80/tcp" := PStr (T "32768") ]}, 3%nat))
    by (vm_compute; reflexivity).
  destruct (port_discovery_is_bounded late_ports [T "80/tcp"] _ _ Hrun)
    as (Hbound & _ & _ & _ & Hall).
  split; [exact Hrun|]. split; [exact Hbound|].
  apply Hall; [lia|]. apply list_elem_of_singleton. reflexivity.
Defined.

Lemma documentation_injection_needs_mapping_witness :
  exists info,
    assemble_result (constant_model (T "docs")) [T "user login"] false (PDict ∅)
      (LoopState (PList []) (PStr []) 1 (PBool true)) []
    = (Raise TypeError,
       [Call documentation_agent (DocPrompt info (PDict ∅) (PList []) [T "user login"])]).
Proof.
  apply (proj1 (documentation_injection_needs_mapping (constant_model (T "docs"))
                  [T "user login"] false (LoopState (PList []) (PStr []) 1 (PBool true)) [])
           ∅).
  intros files. discriminate.
Defined.

Lemma service_name_of_image_witness :
  service_name (T "ghcr.io/acme/api:1.2") = Ok (T "api").
Proof.
  apply (proj2 (service_name_of_image (T "ghcr.io/acme/api:1.2"))
           (T "ghcr.io/acme/") (T "api") (T ":1.2")).
  - reflexivity.
  - right. exists (T "ghcr.io/acme"). reflexivity.
  - right. exists (T "1.2"). reflexivity.
  - apply (bool_decide_unpack _). vm_compute. exact I.
  - apply (bool_decide_unpack _). vm_compute. exact I.
  - apply (bool_decide_unpack _). vm_compute. exact I.
Defined.
